(** * Agent-Airwave swarm: the LangGraph workflow of
      [airwave_agent_swarm.py] and [silicon_swarm_4g.py]

    The two scripts declare the same cyclic pipeline
    orchestrator -> librarian -> rtl_engineer -> judge -> physical_design,
    with a retry ceiling checked by the orchestrator.  This file embeds the
    state record, the node functions, the routing functions and the graph
    wiring of both scripts, and a driver loop for the compiled graph. *)

From Stdlib Require Import String ZArith List Bool Lia.
Import ListNotations.
Open Scope string_scope.
Open Scope Z_scope.

(* ================================================================== *)
(** * 1. The global state memory *)
(* ================================================================== *)

(** Values stored in the JSON packages ([Dict[str, Any]]): the scripts only
    store strings and lists of strings. *)
Inductive JsonValue : Type :=
| JString (s : string)
| JArray (items : list string).

Definition PyDict : Type := list (string * JsonValue).

(** [class SwarmState(TypedDict)].  [retry_count] is a Python [int],
    hence unbounded. *)
Record SwarmState : Type := mkSwarmState {
  task_description : string;
  spec_block : option string;
  rtl_code : option string;
  judge_feedback : option PyDict;
  pd_feedback : option PyDict;
  status : string;
  retry_count : Z;
  budget_alert : bool
}.

(** The keys of [SwarmState]. *)
Inductive Key : Type :=
| K_task_description | K_spec_block | K_rtl_code | K_judge_feedback
| K_pd_feedback | K_status | K_retry_count | K_budget_alert.

(** One [key: value] item of the dict a node returns. *)
Inductive Write : Type :=
| set_task_description (v : string)
| set_spec_block (v : option string)
| set_rtl_code (v : option string)
| set_judge_feedback (v : option PyDict)
| set_pd_feedback (v : option PyDict)
| set_status (v : string)
| set_retry_count (v : Z)
| set_budget_alert (v : bool).

(** A node returns a dict holding some of the keys (or [None], which is the
    empty update): the list of its items, in the order they are written. *)
Definition Update : Type := list Write.

Definition key_of (w : Write) : Key :=
  match w with
  | set_task_description _ => K_task_description
  | set_spec_block _ => K_spec_block
  | set_rtl_code _ => K_rtl_code
  | set_judge_feedback _ => K_judge_feedback
  | set_pd_feedback _ => K_pd_feedback
  | set_status _ => K_status
  | set_retry_count _ => K_retry_count
  | set_budget_alert _ => K_budget_alert
  end.

Definition keys (u : Update) : list Key := map key_of u.

(** [state[k]], packaged as the item [k: state[k]]. *)
Definition get (k : Key) (s : SwarmState) : Write :=
  match k with
  | K_task_description => set_task_description (task_description s)
  | K_spec_block => set_spec_block (spec_block s)
  | K_rtl_code => set_rtl_code (rtl_code s)
  | K_judge_feedback => set_judge_feedback (judge_feedback s)
  | K_pd_feedback => set_pd_feedback (pd_feedback s)
  | K_status => set_status (status s)
  | K_retry_count => set_retry_count (retry_count s)
  | K_budget_alert => set_budget_alert (budget_alert s)
  end.

(** Modelled from the spec: the engine's merge of a node's partial update
    into the record (spec 4.1: fields present in the update overwrite, fields
    absent are retained).  The scripts leave it to
    [StateGraph(SwarmState)]; [SwarmState] declares no reducer for any key,
    so every key is overwritten by the value written. *)
Definition assign (s : SwarmState) (w : Write) : SwarmState :=
  match w with
  | set_task_description v =>
      mkSwarmState v (spec_block s) (rtl_code s) (judge_feedback s)
        (pd_feedback s) (status s) (retry_count s) (budget_alert s)
  | set_spec_block v =>
      mkSwarmState (task_description s) v (rtl_code s) (judge_feedback s)
        (pd_feedback s) (status s) (retry_count s) (budget_alert s)
  | set_rtl_code v =>
      mkSwarmState (task_description s) (spec_block s) v (judge_feedback s)
        (pd_feedback s) (status s) (retry_count s) (budget_alert s)
  | set_judge_feedback v =>
      mkSwarmState (task_description s) (spec_block s) (rtl_code s) v
        (pd_feedback s) (status s) (retry_count s) (budget_alert s)
  | set_pd_feedback v =>
      mkSwarmState (task_description s) (spec_block s) (rtl_code s)
        (judge_feedback s) v (status s) (retry_count s) (budget_alert s)
  | set_status v =>
      mkSwarmState (task_description s) (spec_block s) (rtl_code s)
        (judge_feedback s) (pd_feedback s) v (retry_count s) (budget_alert s)
  | set_retry_count v =>
      mkSwarmState (task_description s) (spec_block s) (rtl_code s)
        (judge_feedback s) (pd_feedback s) (status s) v (budget_alert s)
  | set_budget_alert v =>
      mkSwarmState (task_description s) (spec_block s) (rtl_code s)
        (judge_feedback s) (pd_feedback s) (status s) (retry_count s) v
  end.

(** Modelled from the spec: the merge of a whole update (spec 4.1), one item
    after the other. *)
Definition merge (s : SwarmState) (u : Update) : SwarmState :=
  fold_left assign u s.

(* ================================================================== *)
(** * 2. The agent nodes *)
(* ================================================================== *)

(** The retry ceiling: the literal [5] of [orchestrator_node]. *)
Definition RETRY_LIMIT : Z := 5.

(** [orchestrator_node], the same text in both scripts. *)
Definition orchestrator_node (state : SwarmState) : Update :=
  if retry_count state >=? 5 then
    [set_status "HALTED"; set_budget_alert true]
  else
    [set_status "TASK_APPROVED"].

(** [physical_design_node], the same text in both scripts. *)
Definition physical_design_node (state : SwarmState) : Update :=
  [set_status "GDSII_HARDENED"].

(** The two outcomes of a verification pass, as [verification_judge_node]
    writes them in both scripts: a correction package with the failure
    status and one more retry, or the package cleared with [VERIFIED]. *)
Definition judge_verdict (feedback : PyDict) (failed : bool)
    (state : SwarmState) : Update :=
  if failed then
    [set_judge_feedback (Some feedback);
     set_status "FAILED_VERIFICATION";
     set_retry_count (retry_count state + 1)]
  else
    [set_judge_feedback None; set_status "VERIFIED"].

(** A judge whose tool run fails exactly on the states [tool_fails] says:
    the scripts simulate the tool with [retry_count == 0]. *)
Definition scripted_judge (feedback : PyDict)
    (tool_fails : SwarmState -> bool) (state : SwarmState) : Update :=
  judge_verdict feedback (tool_fails state) state.

(* ================================================================== *)
(** * 3. The routing logic *)
(* ================================================================== *)

(** The routing functions, the same text in both scripts.  A Python function
    that falls off its end returns [None]. *)
Definition route_after_orchestrator (state : SwarmState) : option string :=
  if (status state =? "HALTED")%string then Some "human_intervention"
  else Some "librarian".

Definition route_after_judge (state : SwarmState) : option string :=
  if (status state =? "VERIFIED")%string then Some "physical_design"
  else if (status state =? "FAILED_VERIFICATION")%string then Some "orchestrator"
  else None.

Definition route_after_physical_design (state : SwarmState) : option string :=
  if (status state =? "GDSII_HARDENED")%string then Some "end"
  else Some "rtl_engineer".

(* ================================================================== *)
(** * 4. The graph and its driver *)
(* ================================================================== *)

(** The six nodes both scripts add to the graph. *)
Inductive Stage : Type :=
| Orchestrator | Librarian | RtlEngineer | Judge | PhysicalDesign
| HumanIntervention.

Definition stages : list Stage :=
  [Orchestrator; Librarian; RtlEngineer; Judge; PhysicalDesign;
   HumanIntervention].

(** [END] of [langgraph.graph]. *)
Definition END : string := "__end__".

(** [add_edge(src, dst)] and [add_conditional_edges(src, path, path_map)];
    the path map is optional. *)
Inductive Edge : Type :=
| add_edge (dst : string)
| add_conditional_edges (path : SwarmState -> option string)
    (path_map : option (list (string * string))).

(** A built workflow: the name and the function given to [add_node] for each
    stage, and the edge leaving it. *)
Record StateGraph : Type := mkStateGraph {
  node_name : Stage -> string;
  node_fn : Stage -> SwarmState -> Update;
  edge_of : Stage -> Edge
}.

Fixpoint lookup (k : string) (m : list (string * string)) : option string :=
  match m with
  | [] => None
  | (k', v) :: m' => if (k =? k')%string then Some v else lookup k m'
  end.

Definition find_node (g : StateGraph) (name : string) : option Stage :=
  find (fun n => (node_name g n =? name)%string) stages.

(** Where control goes after a stage. *)
Inductive Dest : Type :=
| Goto (n : Stage)          (* the named node runs next *)
| ToEnd                     (* [END]: the run is over *)
| Unknown (name : string)   (* a name that is neither a node nor [END] *)
| NoDest.                   (* the path function gave no usable result *)

Definition resolve (g : StateGraph) (name : string) : Dest :=
  if (name =? END)%string then ToEnd
  else match find_node g name with
       | Some n => Goto n
       | None => Unknown name
       end.

(** Modelled from the spec: how the compiled graph picks the next stage
    (spec 4.4, 4.5); the scripts leave it to [workflow.compile()].  A fixed
    edge names its target.  A conditional edge calls its path function on
    the merged state; with a path map the result is looked up in the map
    (a missing key, [None] included, is an error), without one the result
    is itself the target ([None] is an error). *)
Definition destination (g : StateGraph) (n : Stage) (s : SwarmState) : Dest :=
  match edge_of g n with
  | add_edge dst => resolve g dst
  | add_conditional_edges path None =>
      match path s with
      | Some r => resolve g r
      | None => NoDest
      end
  | add_conditional_edges path (Some path_map) =>
      match path s with
      | Some r =>
          match lookup r path_map with
          | Some dst => resolve g dst
          | None => NoDest
          end
      | None => NoDest
      end
  end.

(** One stage invocation, as the driver records it: the stage, the state it
    was given and the state after its update was merged. *)
Record Event : Type := mkEvent {
  ev_stage : Stage;
  ev_input : SwarmState;
  ev_output : SwarmState
}.

(** How a run ends. *)
Inductive Outcome : Type :=
| Finished                                        (* reached [END] *)
| Unrouted (name : string)                        (* target is no node: nothing is scheduled *)
| RoutingError (at_stage : Stage) (st : string)   (* no target for this status *)
| OutOfFuel.

(** Modelled from the spec: one iteration of the engine loop (spec 4.5):
    invoke the stage, merge its update in full, then ask for the next
    stage. *)
Definition step (g : StateGraph) (n : Stage) (s : SwarmState) : Event * Dest :=
  let s' := merge s (node_fn g n s) in
  (mkEvent n s s', destination g n s').

(** Modelled from the spec: the engine loop (spec 4.5), bounded by [fuel]
    iterations.  It returns the stage invocations in order and the way the
    run ended. *)
Fixpoint run_from (g : StateGraph) (fuel : nat) (n : Stage) (s : SwarmState)
  : list Event * Outcome :=
  match fuel with
  | O => ([], OutOfFuel)
  | S fuel' =>
      let (e, d) := step g n s in
      match d with
      | Goto m =>
          let (tr, o) := run_from g fuel' m (ev_output e) in (e :: tr, o)
      | ToEnd => ([e], Finished)
      | Unknown name => ([e], Unrouted name)
      | NoDest => ([e], RoutingError n (status (ev_output e)))
      end
  end.

(** [add_edge(START, "orchestrator")]: a run enters at the orchestrator. *)
Definition run (g : StateGraph) (fuel : nat) (s : SwarmState)
  : list Event * Outcome :=
  run_from g fuel Orchestrator s.

(** The state a run leaves behind: the output of its last stage. *)
Definition final_state (s0 : SwarmState) (tr : list Event) : SwarmState :=
  last (map ev_output tr) s0.

(* ================================================================== *)
(** * 5. The two scripts *)
(* ================================================================== *)

Module airwave_agent_swarm.

Definition librarian_node (state : SwarmState) : Update :=
  let spec := "### [TITLE: PSS Generator]
- 3GPP Ref: TS 36.211...
- Formula: Zadoff-Chu..." in
  [set_spec_block (Some spec); set_status "SPEC_READY"].

Definition rtl_engineer_node (state : SwarmState) : Update :=
  let sv_code := "module lte_pss_gen ( input logic clk... ); 
// RTL Logic
endmodule" in
  [set_rtl_code (Some sv_code); set_status "CODED"].

Definition feedback : PyDict :=
  [("correction_id", JString "ERR-001");
   ("failure_type", JString "LINT");
   ("required_fix", JArray ["Change '<=' to '=' in always_comb."])].

Definition verification_judge_node (state : SwarmState) : Update :=
  if retry_count state =? 0 then
    [set_judge_feedback (Some feedback);
     set_status "FAILED_VERIFICATION";
     set_retry_count (retry_count state + 1)]
  else
    [set_judge_feedback None; set_status "VERIFIED"].

(** [lambda x: print(...)]: the node returns [None], an empty update. *)
Definition human_intervention (x : SwarmState) : Update := [].

(** The graph, with the function registered as "judge" left open. *)
Definition build (judge : SwarmState -> Update) : StateGraph :=
  {| node_name := fun n =>
       match n with
       | Orchestrator => "orchestrator"
       | Librarian => "librarian"
       | RtlEngineer => "rtl_engineer"
       | Judge => "judge"
       | PhysicalDesign => "physical_design"
       | HumanIntervention => "human_intervention"
       end;
     node_fn := fun n =>
       match n with
       | Orchestrator => orchestrator_node
       | Librarian => librarian_node
       | RtlEngineer => rtl_engineer_node
       | Judge => judge
       | PhysicalDesign => physical_design_node
       | HumanIntervention => human_intervention
       end;
     edge_of := fun n =>
       match n with
       | Orchestrator =>
           add_conditional_edges route_after_orchestrator
             (Some [("librarian", "librarian");
                    ("human_intervention", "human_intervention")])
       | Librarian => add_edge "rtl_engineer"
       | RtlEngineer => add_edge "judge"
       | Judge =>
           add_conditional_edges route_after_judge
             (Some [("physical_design", "physical_design");
                    ("orchestrator", "orchestrator")])
       | PhysicalDesign =>
           add_conditional_edges route_after_physical_design
             (Some [("end", END); ("rtl_engineer", "rtl_engineer")])
       | HumanIntervention => add_edge END
       end |}.

Definition workflow : StateGraph := build verification_judge_node.

Definition initial_state : SwarmState :=
  {| task_description := "Design LTE PSS Generator module";
     spec_block := None;
     rtl_code := None;
     judge_feedback := None;
     pd_feedback := None;
     status := "NEW";
     retry_count := 0;
     budget_alert := false |}.

End airwave_agent_swarm.

Module silicon_swarm_4g.

Definition librarian_node (state : SwarmState) : Update :=
  let spec := "### [TITLE: LTE PSS Generator]
**3GPP Reference:** TS 36.211 v10.0.0, Section 6.11.1
**Functional Objective:** Generate the Primary Synchronization Signal for LTE downlink
**Mathematical Foundation:**
- Zadoff-Chu sequence: d_u(n) = exp(-j * 2œÄ * u * n * (n+1) / 63) for n = 0 to 30
- Root indices u ‚àà {25, 29, 34} corresponding to N_ID^(2) ‚àà {0, 1, 2}
**Hardware Constants:**
- Sequence length: N_ZC = 63
- Subcarrier mapping: 31 elements to subcarriers -31 to -1, 32 elements to +1 to +32
**Implementation Notes:** Store sequences in ROM for ASIC efficiency. Use 16-bit complex fixed-point arithmetic.
" in
  [set_spec_block (Some spec); set_status "SPEC_READY"].

Definition rtl_engineer_node (state : SwarmState) : Update :=
  let sv_code := "module lte_pss_gen (
    input logic clk,
    input logic rst_n,
    input logic [1:0] n_id_2,  // Physical layer identity
    output logic signed [15:0] pss_i [0:61],  // In-phase components
    output logic signed [15:0] pss_q [0:61]   // Quadrature components
);

// Zadoff-Chu sequence ROM
// Implementation details...

endmodule
" in
  [set_rtl_code (Some sv_code); set_status "CODED"].

Definition feedback : PyDict :=
  [("correction_id", JString "ERR-001");
   ("failure_type", JString "LINT");
   ("evidence",
    JString "Line 15: 'logic' should be 'wire' for continuous assignment");
   ("root_cause_analysis",
    JString "Incorrect data type declaration in SystemVerilog");
   ("required_fix",
    JString "Change 'logic' to 'wire' in output declarations")].

Definition verification_judge_node (state : SwarmState) : Update :=
  if retry_count state =? 0 then
    [set_judge_feedback (Some feedback);
     set_status "FAILED_VERIFICATION";
     set_retry_count (retry_count state + 1)]
  else
    [set_judge_feedback None; set_status "VERIFIED"].

(** [lambda state: {"status": "HALTED"}]. *)
Definition human_intervention (state : SwarmState) : Update :=
  [set_status "HALTED"].

(** The graph, with the function registered as "verification_judge" left
    open.  No conditional edge has a path map. *)
Definition build (judge : SwarmState -> Update) : StateGraph :=
  {| node_name := fun n =>
       match n with
       | Orchestrator => "orchestrator"
       | Librarian => "librarian"
       | RtlEngineer => "rtl_engineer"
       | Judge => "verification_judge"
       | PhysicalDesign => "physical_design"
       | HumanIntervention => "human_intervention"
       end;
     node_fn := fun n =>
       match n with
       | Orchestrator => orchestrator_node
       | Librarian => librarian_node
       | RtlEngineer => rtl_engineer_node
       | Judge => judge
       | PhysicalDesign => physical_design_node
       | HumanIntervention => human_intervention
       end;
     edge_of := fun n =>
       match n with
       | Orchestrator => add_conditional_edges route_after_orchestrator None
       | Librarian => add_edge "rtl_engineer"
       | RtlEngineer => add_edge "verification_judge"
       | Judge => add_conditional_edges route_after_judge None
       | PhysicalDesign =>
           add_conditional_edges route_after_physical_design None
       | HumanIntervention => add_edge END
       end |}.

Definition workflow : StateGraph := build verification_judge_node.

Definition initial_state : SwarmState :=
  {| task_description := "Design LTE PSS Generator";
     spec_block := None;
     rtl_code := None;
     judge_feedback := None;
     pd_feedback := None;
     status := "START";
     retry_count := 0;
     budget_alert := false |}.

End silicon_swarm_4g.


(* ================================================================== *)
(** * 6. Both scripts, side by side *)
(* ================================================================== *)

Inductive Build : Type := Airwave | Silicon4G.

Definition build_of (b : Build) (judge : SwarmState -> Update) : StateGraph :=
  match b with
  | Airwave => airwave_agent_swarm.build judge
  | Silicon4G => silicon_swarm_4g.build judge
  end.

Definition feedback_of (b : Build) : PyDict :=
  match b with
  | Airwave => airwave_agent_swarm.feedback
  | Silicon4G => silicon_swarm_4g.feedback
  end.

(** The workflow each script compiles and runs. *)
Definition workflow_of (b : Build) : StateGraph :=
  match b with
  | Airwave => airwave_agent_swarm.workflow
  | Silicon4G => silicon_swarm_4g.workflow
  end.

Definition initial_state_of (b : Build) : SwarmState :=
  match b with
  | Airwave => airwave_agent_swarm.initial_state
  | Silicon4G => silicon_swarm_4g.initial_state
  end.

(** The stand-in for the tool run in both scripts: fail once, on the first
    pass ([retry_count == 0]). *)
Definition simulated_failure (state : SwarmState) : bool :=
  retry_count state =? 0.

(** The workflow of a script with the tool outcome left open: the judge
    fails on the states [tool_fails] names and passes on the others.
    [workflow_of b] is [scripted b simulated_failure]. *)
Definition scripted (b : Build) (tool_fails : SwarmState -> bool) : StateGraph :=
  build_of b (scripted_judge (feedback_of b) tool_fails).

(* ================================================================== *)
(** * 7. Runs, reachable states and what is observed of them *)
(* ================================================================== *)

(** The configurations a run goes through: the stage invocations so far
    (newest first), where control goes next, and the current state. *)
Inductive Reach (g : StateGraph) (s0 : SwarmState)
  : list Event -> Dest -> SwarmState -> Prop :=
| Reach_start : Reach g s0 [] (Goto Orchestrator) s0
| Reach_step (h : list Event) (n : Stage) (s : SwarmState)
    (e : Event) (d : Dest) :
    Reach g s0 h (Goto n) s ->
    step g n s = (e, d) ->
    Reach g s0 (e :: h) d (ev_output e).

(** The configuration after [k] stage invocations, when the run gets that
    far. *)
Fixpoint advance (g : StateGraph) (k : nat) (s0 : SwarmState)
  : option (list Event * Dest * SwarmState) :=
  match k with
  | O => Some ([], Goto Orchestrator, s0)
  | S k' =>
      match advance g k' s0 with
      | Some (h, Goto n, s) =>
          let (e, d) := step g n s in Some (e :: h, d, ev_output e)
      | _ => None
      end
  end.

(** Does the update write this status? *)
Definition sets_status (u : Update) (v : string) : bool :=
  existsb (fun w => match w with
                    | set_status x => (x =? v)%string
                    | _ => false
                    end) u.

(** A FAILED_VERIFICATION transition: a stage invocation whose update sets
    that status. *)
Definition failed_verification (g : StateGraph) (e : Event) : bool :=
  sets_status (node_fn g (ev_stage e) (ev_input e)) "FAILED_VERIFICATION".

Definition count_failed_verification (g : StateGraph) (tr : list Event) : Z :=
  Z.of_nat (length (filter (failed_verification g) tr)).

(** The stages that do the work, as opposed to the orchestrator and the
    escalation sink. *)
Definition is_worker (n : Stage) : bool :=
  match n with
  | Librarian | RtlEngineer | Judge | PhysicalDesign => true
  | Orchestrator | HumanIntervention => false
  end.

Definition is_judge (n : Stage) : bool :=
  match n with Judge => true | _ => false end.

Definition present {A : Type} (o : option A) : bool :=
  match o with Some _ => true | None => false end.

(** Was the most recent verification outcome a failure?  The history is
    newest first; with no verification so far the answer is no. *)
Definition last_verification_failed (h : list Event) : bool :=
  match find (fun e => is_judge (ev_stage e)) h with
  | Some e => (status (ev_output e) =? "FAILED_VERIFICATION")%string
  | None => false
  end.

(** What the engine sees of a stage invocation: the stage and the routing
    fields of the state it leaves. *)
Definition visible (e : Event) : Stage * string * Z * bool :=
  (ev_stage e, status (ev_output e), retry_count (ev_output e),
   budget_alert (ev_output e)).

(** The rest of the state, with the opaque contents of [spec_block],
    [rtl_code] and [judge_feedback] reduced to their presence. *)
Definition outline_of (s : SwarmState)
  : string * bool * bool * bool * option PyDict :=
  (task_description s, present (spec_block s), present (rtl_code s),
   present (judge_feedback s), pd_feedback s).

Definition outline (e : Event)
  : Stage * (string * bool * bool * bool * option PyDict) :=
  (ev_stage e, outline_of (ev_output e)).


(** Once the orchestrator is handed a retry count at the ceiling it halts
    with the alert raised, and no working stage runs after it. *)
Definition halts_cleanly (tr : list Event) : Prop :=
  forall pre e post,
    tr = (pre ++ e :: post)%list ->
    ev_stage e = Orchestrator ->
    RETRY_LIMIT <= retry_count (ev_input e) ->
    status (ev_output e) = "HALTED" /\
    budget_alert (ev_output e) = true /\
    Forall (fun e' => is_worker (ev_stage e') = false) post.

(** A run that ends (it does not exhaust its fuel) with at most [k]
    verification failures, and halts cleanly. *)
Definition ends_within (g : StateGraph) (k : Z) (r : list Event * Outcome)
  : Prop :=
  snd r <> OutOfFuel /\
  count_failed_verification g (fst r) <= k /\
  halts_cleanly (fst r).

(** The property of a bounded run: it ends within the fuel, with at most
    [RETRY_LIMIT] verification failures, and it halts cleanly. *)
Definition bounded_run (g : StateGraph) (fuel : nat) (s0 : SwarmState) : Prop :=
  ends_within g RETRY_LIMIT (run g fuel s0).

(* ================================================================== *)
(** * 7b. The verification bench: capturing the AXI4-Stream output *)
(* ================================================================== *)

(** What the bench reads of the DUT in one clock cycle, after
    [RisingEdge(dut.clk)] and [ReadOnly()]: the values of the four stream
    signals, taken as resolved integers. *)
Record AxisCycle : Type := mkAxisCycle {
  m_axis_tvalid : Z;
  m_axis_tready : Z;
  m_axis_tdata : Z;
  m_axis_tlast : Z
}.

(** The extraction of the two 16-bit signed integers from [raw_tdata]
    ([base_testbench.py], [capture_axis_data]; the same lines stand in
    [test_lte_pss_generator] of [tb_lte_pss_gen.py]): I is [tdata[15:0]],
    Q is [tdata[31:16]], both read as two's complement. *)
Definition unpack_tdata (raw_tdata : Z) : Z * Z :=
  let i_val := Z.land raw_tdata 65535 in
  let q_val := Z.land (Z.shiftr raw_tdata 16) 65535 in
  let i_val := if i_val >? 32767 then i_val - 65536 else i_val in
  let q_val := if q_val >? 32767 then q_val - 65536 else q_val in
  (i_val, q_val).

(** How far the capture got on the clock cycles it was given: it returned
    its two lists, or it still awaits the next clock edge. *)
Inductive Capture : Type :=
| Returned (i_data q_data : list Z)
| Waiting (i_data q_data : list Z).

(** The [while] loop of [capture_axis_data], one iteration per clock
    cycle. *)
Fixpoint capture_loop (expected_samples : Z) (cycles : list AxisCycle)
    (i_data q_data : list Z) : Capture :=
  match cycles with
  | [] =>
      if Z.of_nat (length i_data) <? expected_samples
      then Waiting i_data q_data
      else Returned i_data q_data
  | c :: rest =>
      if Z.of_nat (length i_data) <? expected_samples then
        if (m_axis_tvalid c =? 1) && (m_axis_tready c =? 1) then
          let (i_val, q_val) := unpack_tdata (m_axis_tdata c) in
          let i_data := (i_data ++ [i_val])%list in
          let q_data := (q_data ++ [q_val])%list in
          if m_axis_tlast c =? 1 then Returned i_data q_data
          else capture_loop expected_samples rest i_data q_data
        else capture_loop expected_samples rest i_data q_data
      else Returned i_data q_data
  end.

(** [LTEBaseTestbench.capture_axis_data]; the loop of
    [test_lte_pss_generator] in [tb_lte_pss_gen.py] is the same with 62
    for [expected_samples]. *)
Definition capture_axis_data (expected_samples : Z) (cycles : list AxisCycle)
  : Capture :=
  capture_loop expected_samples cycles [] [].

(** A cycle in which a sample is transferred. *)
Definition accepted (c : AxisCycle) : bool :=
  (m_axis_tvalid c =? 1) && (m_axis_tready c =? 1).

(** The transfers up to and including the first one that carries
    [tlast]. *)
Fixpoint until_tlast (beats : list AxisCycle) : list AxisCycle :=
  match beats with
  | [] => []
  | c :: rest =>
      if m_axis_tlast c =? 1 then [c] else c :: until_tlast rest
  end.

(** The transfers a capture of [expected_samples] takes in. *)
Definition captured_beats (expected_samples : Z) (cycles : list AxisCycle)
  : list AxisCycle :=
  firstn (Z.to_nat expected_samples) (until_tlast (filter accepted cycles)).

Definition ends_with_tlast (beats : list AxisCycle) : bool :=
  existsb (fun c => m_axis_tlast c =? 1) beats.

Definition lists_of (r : Capture) : list Z * list Z :=
  match r with
  | Returned i_data q_data => (i_data, q_data)
  | Waiting i_data q_data => (i_data, q_data)
  end.

Definition has_returned (r : Capture) : bool :=
  match r with Returned _ _ => true | Waiting _ _ => false end.

Definition signed16 (v : Z) : Prop := -32768 <= v <= 32767.

(** The I and the Q value a transfer carries. *)
Definition i_of (c : AxisCycle) : Z := fst (unpack_tdata (m_axis_tdata c)).

Definition q_of (c : AxisCycle) : Z := snd (unpack_tdata (m_axis_tdata c)).

(** Cycles used as concrete inputs: an idle cycle, a transfer of the word
    [raw], and the same with [tlast] set. *)
Definition idle_cycle : AxisCycle := mkAxisCycle 0 1 0 0.

Definition beat (raw : Z) : AxisCycle := mkAxisCycle 1 1 raw 0.

Definition last_beat (raw : Z) : AxisCycle := mkAxisCycle 1 1 raw 1.

(** What holds of every configuration of a run started in [s0]: two
    fields are never written, the retry count stays between its initial
    value and the ceiling, and control reaches a stage only on a state
    that the stage before it prepared. *)
Definition run_invariant (b : Build) (s0 : SwarmState) (h : list Event)
    (d : Dest) (s : SwarmState) : Prop :=
  task_description s = task_description s0 /\
  pd_feedback s = pd_feedback s0 /\
  retry_count s0 <= retry_count s /\
  retry_count s <= Z.max (retry_count s0) RETRY_LIMIT /\
  match d with
  | Goto Orchestrator =>
      budget_alert s = budget_alert s0 /\
      (h = [] \/
       (status s = "FAILED_VERIFICATION" /\
        judge_feedback s = Some (feedback_of b)))
  | Goto Librarian =>
      budget_alert s = budget_alert s0 /\
      status s = "TASK_APPROVED" /\ retry_count s < RETRY_LIMIT
  | Goto RtlEngineer =>
      budget_alert s = budget_alert s0 /\
      status s = "SPEC_READY" /\ retry_count s < RETRY_LIMIT /\
      present (spec_block s) = true
  | Goto Judge =>
      budget_alert s = budget_alert s0 /\
      status s = "CODED" /\ retry_count s < RETRY_LIMIT /\
      present (spec_block s) = true /\ present (rtl_code s) = true
  | Goto PhysicalDesign =>
      budget_alert s = budget_alert s0 /\
      status s = "VERIFIED" /\ retry_count s < RETRY_LIMIT /\
      present (spec_block s) = true /\ present (rtl_code s) = true /\
      judge_feedback s = None
  | Goto HumanIntervention =>
      status s = "HALTED" /\ budget_alert s = true /\
      RETRY_LIMIT <= retry_count s
  | ToEnd | Unknown _ =>
      (status s = "GDSII_HARDENED" /\ budget_alert s = budget_alert s0 /\
       retry_count s < RETRY_LIMIT /\
       present (spec_block s) = true /\ present (rtl_code s) = true /\
       judge_feedback s = None) \/
      (status s = "HALTED" /\ budget_alert s = true /\
       RETRY_LIMIT <= retry_count s)
  | NoDest => False
  end.

(** The state of [silicon_swarm_4g.py] after the orchestrator approved the
    task, and the invocation that led there. *)
Definition approved_state : SwarmState :=
  merge silicon_swarm_4g.initial_state
    (orchestrator_node silicon_swarm_4g.initial_state).

Definition approval : Event :=
  mkEvent Orchestrator silicon_swarm_4g.initial_state approved_state.

(** Python truth of an optional string: [None] and the empty string are
    false. *)
Definition truthy (o : option string) : bool :=
  match o with
  | Some v => negb (v =? "")%string
  | None => false
  end.

(** What [silicon_swarm_4g.py] prints once [app.invoke] has returned the
    final state (the last lines of its main block), one entry per
    [print]. *)
Definition main_report (final_state : SwarmState) : list string :=
  (["
üèÅ Swarm execution completed!";
    ("Final Status: " ++ status final_state)%string]
   ++ (if truthy (rtl_code final_state)
       then ["RTL Code generated successfully"] else [])
   ++ (if budget_alert final_state
       then ["‚ö†Ô∏è  Human intervention required"] else []))%list.

(** The three lines the report can hold beside the status. *)
Definition completed_line : string := "
üèÅ Swarm execution completed!".

Definition rtl_line : string := "RTL Code generated successfully".

Definition human_line : string := "‚ö†Ô∏è  Human intervention required".

(** States used as concrete inputs below. *)
Definition with_status (v : string) (s : SwarmState) : SwarmState :=
  assign s (set_status v).

Definition with_retry_count (v : Z) (s : SwarmState) : SwarmState :=
  assign s (set_retry_count v).

Definition exhausted_state : SwarmState :=
  with_retry_count 5 silicon_swarm_4g.initial_state.

Definition bogus_state : SwarmState :=
  with_status "BOGUS" airwave_agent_swarm.initial_state.

(** The statuses of the transition table (spec 4.4), the hardener's success
    status spelled as the scripts spell it. *)
Definition table_statuses : list string :=
  ["HALTED"; "TASK_APPROVED"; "SPEC_READY"; "CODED"; "FAILED_VERIFICATION";
   "VERIFIED"; "FAILED_HARDENING"; "GDSII_HARDENED"].

(** A node that writes nothing, for a judge that leaves the status alone. *)
Definition silent_node (state : SwarmState) : Update := [].

(** The first verification of the run of [airwave_agent_swarm.py]: its
    fourth stage invocation. *)
Definition first_judge_event : Event :=
  nth 3
    (fst (run airwave_agent_swarm.workflow 10
            airwave_agent_swarm.initial_state))
    (mkEvent Orchestrator airwave_agent_swarm.initial_state
       airwave_agent_swarm.initial_state).

(** The state the orchestrator leaves when handed [exhausted_state]. *)
Definition halted_state : SwarmState :=
  merge exhausted_state (orchestrator_node exhausted_state).

(** The configuration of the run of [airwave_agent_swarm.py] after five
    stage invocations: the orchestrator has approved the retry. *)
Definition approved_retry : list Event * Dest * SwarmState :=
  match advance airwave_agent_swarm.workflow 5
          airwave_agent_swarm.initial_state with
  | Some c => c
  | None => ([], NoDest, airwave_agent_swarm.initial_state)
  end.

(** What the lockstep simulation establishes from a stage [n] and a pair of
    states: the same visible moves, fuel exhausted by both runs or by
    neither, and the same outline when the states start with one. *)
Definition lockstep_goal (fuel : nat) (n : Stage) (s1 s2 : SwarmState) : Prop :=
  map visible (fst (run_from (scripted Airwave simulated_failure) fuel n s1))
  = map visible
      (fst (run_from (scripted Silicon4G simulated_failure) fuel n s2)) /\
  (snd (run_from (scripted Airwave simulated_failure) fuel n s1) = OutOfFuel
   <-> snd (run_from (scripted Silicon4G simulated_failure) fuel n s2)
       = OutOfFuel) /\
  (outline_of s1 = outline_of s2 ->
   map outline (fst (run_from (scripted Airwave simulated_failure) fuel n s1))
   = map outline
       (fst (run_from (scripted Silicon4G simulated_failure) fuel n s2))).

Definition unchanged_update : Update :=
  [set_status "NEW"; set_retry_count 0; set_judge_feedback None].

(* ================================================================== *)
(** * 8. Merge semantics *)
(* ================================================================== *)

Lemma assign_get_same (w : Write) (s : SwarmState) :
  get (key_of w) (assign s w) = w.
Proof. destruct w; reflexivity. Qed.

Lemma assign_get_other (w : Write) (s : SwarmState) (k : Key) :
  k <> key_of w -> get k (assign s w) = get k s.
Proof. destruct w, k; simpl; intros H; try reflexivity; contradiction. Qed.

Lemma assign_noop (s : SwarmState) (w : Write) :
  get (key_of w) s = w -> assign s w = s.
Proof.
  destruct s, w; simpl; intros H; injection H as ->; reflexivity.
Qed.

Lemma merge_cons (s : SwarmState) (w : Write) (u : Update) :
  merge s (w :: u) = merge (assign s w) u.
Proof. reflexivity. Qed.

Lemma merge_absent (u : Update) :
  forall (s : SwarmState) (k : Key),
    ~ In k (keys u) -> get k (merge s u) = get k s.
Proof.
  induction u as [| w u IH]; intros s k Hk; [reflexivity |].
  rewrite merge_cons, IH.
  - apply assign_get_other. intros ->. apply Hk. now left.
  - intros H. apply Hk. now right.
Qed.

Lemma merge_present (u : Update) :
  forall (s : SwarmState) (w : Write),
    NoDup (keys u) -> In w u -> get (key_of w) (merge s u) = w.
Proof.
  induction u as [| w0 u IH]; intros s w Hnd Hin; [contradiction |].
  simpl in Hnd. inversion Hnd as [| k ks Hnotin Hnd' ]; subst.
  rewrite merge_cons. destruct Hin as [-> | Hin].
  - rewrite merge_absent by exact Hnotin. apply assign_get_same.
  - now apply IH.
Qed.

Lemma merge_unchanged (u : Update) :
  forall s : SwarmState,
    (forall w, In w u -> get (key_of w) s = w) -> merge s u = s.
Proof.
  induction u as [| w u IH]; intros s H; [reflexivity |].
  rewrite merge_cons, assign_noop by (apply H; now left).
  apply IH. intros w' Hw'. apply H. now right.
Qed.

(** C9.  Merging an update (a dict: each key at most once) into the record
    overwrites exactly the fields present in the update: every item of the
    update is the value of its key afterwards, every key absent from the
    update keeps its value, and an update each of whose items equals the
    current value of its key leaves the record as it was. *)
Theorem merge_overwrites_present_retains_absent
    (s : SwarmState) (u : Update) (Hdict : NoDup (keys u)) :
  (forall w, In w u -> get (key_of w) (merge s u) = w) /\
  (forall k, ~ In k (keys u) -> get k (merge s u) = get k s) /\
  ((forall w, In w u -> get (key_of w) s = w) -> merge s u = s).
Proof.
  split; [| split].
  - intros w Hw. now apply merge_present.
  - intros k Hk. now apply merge_absent.
  - apply merge_unchanged.
Qed.

Lemma merge_overwrites_present_retains_absent_witness :
  NoDup (keys unchanged_update) /\
  get K_status (merge exhausted_state unchanged_update) = set_status "NEW" /\
  get K_budget_alert (merge exhausted_state unchanged_update)
    = get K_budget_alert exhausted_state /\
  merge airwave_agent_swarm.initial_state unchanged_update
    = airwave_agent_swarm.initial_state.
Proof.
  assert (Hdict : NoDup (keys unchanged_update)).
  { repeat constructor; simpl; intuition discriminate. }
  split; [exact Hdict |].
  split; [| split].
  - apply (proj1 (merge_overwrites_present_retains_absent
                    exhausted_state unchanged_update Hdict)
             (set_status "NEW")).
    simpl; auto.
  - apply (proj1 (proj2 (merge_overwrites_present_retains_absent
                    exhausted_state unchanged_update Hdict))).
    simpl; intuition discriminate.
  - apply (proj2 (proj2 (merge_overwrites_present_retains_absent
                    airwave_agent_swarm.initial_state unchanged_update Hdict))).
    simpl. intros w [<- | [<- | [<- | []]]]; reflexivity.
Defined.

(* ================================================================== *)
(** * 9. The orchestrator and the routing functions *)
(* ================================================================== *)

Lemma orchestrator_node_halts (s : SwarmState) :
  RETRY_LIMIT <= retry_count s ->
  orchestrator_node s = [set_status "HALTED"; set_budget_alert true].
Proof.
  unfold orchestrator_node, RETRY_LIMIT. intros H.
  destruct (retry_count s >=? 5) eqn:E; [reflexivity |].
  rewrite Z.geb_leb in E. apply Z.leb_gt in E. lia.
Qed.

Lemma orchestrator_node_approves (s : SwarmState) :
  retry_count s < RETRY_LIMIT ->
  orchestrator_node s = [set_status "TASK_APPROVED"].
Proof.
  unfold orchestrator_node, RETRY_LIMIT. intros H.
  destruct (retry_count s >=? 5) eqn:E; [| reflexivity].
  rewrite Z.geb_leb in E. apply Z.leb_le in E. lia.
Qed.

(** C1.  The orchestrator returns the update status = HALTED,
    budget_alert = true when retry_count >= RETRY_LIMIT, and the update
    holding only status = TASK_APPROVED otherwise.  Below the limit the
    merged state differs from the one it was given in status alone, and
    invoking the orchestrator again on the merged state changes nothing. *)
Theorem orchestrator_node_contract (s : SwarmState) :
  (RETRY_LIMIT <= retry_count s ->
     orchestrator_node s = [set_status "HALTED"; set_budget_alert true]) /\
  (retry_count s < RETRY_LIMIT ->
     orchestrator_node s = [set_status "TASK_APPROVED"] /\
     (forall k, k <> K_status ->
        get k (merge s (orchestrator_node s)) = get k s) /\
     merge (merge s (orchestrator_node s))
       (orchestrator_node (merge s (orchestrator_node s)))
     = merge s (orchestrator_node s)).
Proof.
  split; [apply orchestrator_node_halts |].
  intros Hlt. rewrite (orchestrator_node_approves s Hlt).
  split; [reflexivity |]. split.
  - intros k Hk. apply merge_absent. simpl. intuition congruence.
  - rewrite orchestrator_node_approves by exact Hlt. reflexivity.
Qed.

Lemma orchestrator_node_contract_witness :
  orchestrator_node exhausted_state
    = [set_status "HALTED"; set_budget_alert true] /\
  orchestrator_node airwave_agent_swarm.initial_state
    = [set_status "TASK_APPROVED"] /\
  merge (merge airwave_agent_swarm.initial_state
           (orchestrator_node airwave_agent_swarm.initial_state))
    (orchestrator_node
       (merge airwave_agent_swarm.initial_state
          (orchestrator_node airwave_agent_swarm.initial_state)))
  = merge airwave_agent_swarm.initial_state
      (orchestrator_node airwave_agent_swarm.initial_state).
Proof.
  split; [| split].
  - apply (proj1 (orchestrator_node_contract exhausted_state)).
    unfold RETRY_LIMIT; simpl; lia.
  - apply (proj2 (orchestrator_node_contract
                    airwave_agent_swarm.initial_state)).
    unfold RETRY_LIMIT; simpl; lia.
  - apply (proj2 (orchestrator_node_contract
                    airwave_agent_swarm.initial_state)).
    unfold RETRY_LIMIT; simpl; lia.
Defined.

Lemma status_eqb_true (s : SwarmState) (v : string) :
  status s = v -> (status s =? v)%string = true.
Proof. intros ->. apply String.eqb_refl. Qed.

Lemma status_eqb_false (s : SwarmState) (v : string) :
  status s <> v -> (status s =? v)%string = false.
Proof. intros H. now apply String.eqb_neq. Qed.

(** The resolution of the targets named by the path maps of
    [airwave_agent_swarm.py]. *)
Lemma airwave_destination_after_physical_design
    (judge : SwarmState -> Update) (s : SwarmState) :
  destination (airwave_agent_swarm.build judge) PhysicalDesign s =
  if (status s =? "GDSII_HARDENED")%string then ToEnd else Goto RtlEngineer.
Proof.
  unfold destination; simpl. unfold route_after_physical_design.
  destruct (status s =? "GDSII_HARDENED")%string; reflexivity.
Qed.

(** [silicon_swarm_4g.py] passes no path map, and "end" is not a node of
    its graph: the target stays unresolved and nothing runs after it. *)
Lemma silicon_destination_after_physical_design
    (judge : SwarmState -> Update) (s : SwarmState) :
  destination (silicon_swarm_4g.build judge) PhysicalDesign s =
  if (status s =? "GDSII_HARDENED")%string then Unknown "end"
  else Goto RtlEngineer.
Proof.
  unfold destination; simpl. unfold route_after_physical_design.
  destruct (status s =? "GDSII_HARDENED")%string; reflexivity.
Qed.

Lemma destination_after_orchestrator (b : Build) (judge : SwarmState -> Update)
    (s : SwarmState) :
  destination (build_of b judge) Orchestrator s =
  if (status s =? "HALTED")%string then Goto HumanIntervention
  else Goto Librarian.
Proof.
  destruct b; unfold destination; simpl; unfold route_after_orchestrator;
    destruct (status s =? "HALTED")%string; reflexivity.
Qed.

Lemma destination_after_judge (b : Build) (judge : SwarmState -> Update)
    (s : SwarmState) :
  destination (build_of b judge) Judge s =
  if (status s =? "VERIFIED")%string then Goto PhysicalDesign
  else if (status s =? "FAILED_VERIFICATION")%string then Goto Orchestrator
  else NoDest.
Proof.
  destruct b; unfold destination; simpl; unfold route_after_judge;
    destruct (status s =? "VERIFIED")%string;
    destruct (status s =? "FAILED_VERIFICATION")%string; reflexivity.
Qed.

Lemma workflow_of_scripted (b : Build) :
  workflow_of b = scripted b simulated_failure.
Proof. destruct b; reflexivity. Qed.

Lemma destination_fixed_edges (b : Build) (judge : SwarmState -> Update)
    (s : SwarmState) :
  destination (build_of b judge) Librarian s = Goto RtlEngineer /\
  destination (build_of b judge) RtlEngineer s = Goto Judge /\
  destination (build_of b judge) HumanIntervention s = ToEnd.
Proof. destruct b; repeat split; reflexivity. Qed.

Lemma destination_after_physical_design (b : Build)
    (judge : SwarmState -> Update) (s : SwarmState) :
  destination (build_of b judge) PhysicalDesign s =
  if (status s =? "GDSII_HARDENED")%string then
    match b with Airwave => ToEnd | Silicon4G => Unknown "end" end
  else Goto RtlEngineer.
Proof.
  destruct b; simpl.
  - apply airwave_destination_after_physical_design.
  - apply silicon_destination_after_physical_design.
Qed.

(** The next stage depends on the state through its status alone. *)
Lemma destination_status_only (b : Build) (judge : SwarmState -> Update)
    (n : Stage) (s1 s2 : SwarmState) :
  status s1 = status s2 ->
  destination (build_of b judge) n s1 = destination (build_of b judge) n s2.
Proof.
  intros H. destruct n.
  - now rewrite !destination_after_orchestrator, H.
  - destruct b; reflexivity.
  - destruct b; reflexivity.
  - now rewrite !destination_after_judge, H.
  - now rewrite !destination_after_physical_design, H.
  - destruct b; reflexivity.
Qed.

(** The part of the transition table that both scripts implement: routing
    is a pure function of the stage and the status; after the orchestrator
    HALTED goes to human_intervention and anything else to librarian;
    after the judge VERIFIED goes to physical_design and
    FAILED_VERIFICATION back to the orchestrator; after physical design
    FAILED_HARDENING goes back to rtl_engineer and the hardened status
    (spelled GDSII_HARDENED in the scripts) gives the name "end", which
    the path map of [airwave_agent_swarm.py] sends to END. *)
Theorem router_transition_table :
  (forall b n s1 s2, status s1 = status s2 ->
     destination (workflow_of b) n s1 = destination (workflow_of b) n s2) /\
  (forall b s, status s = "HALTED" ->
     route_after_orchestrator s = Some "human_intervention" /\
     destination (workflow_of b) Orchestrator s = Goto HumanIntervention) /\
  (forall b s, status s <> "HALTED" ->
     route_after_orchestrator s = Some "librarian" /\
     destination (workflow_of b) Orchestrator s = Goto Librarian) /\
  (forall b s, status s = "VERIFIED" ->
     route_after_judge s = Some "physical_design" /\
     destination (workflow_of b) Judge s = Goto PhysicalDesign) /\
  (forall b s, status s = "FAILED_VERIFICATION" ->
     route_after_judge s = Some "orchestrator" /\
     destination (workflow_of b) Judge s = Goto Orchestrator) /\
  (forall s, status s = "GDSII_HARDENED" ->
     route_after_physical_design s = Some "end" /\
     destination airwave_agent_swarm.workflow PhysicalDesign s = ToEnd) /\
  (forall b s, status s = "FAILED_HARDENING" ->
     route_after_physical_design s = Some "rtl_engineer" /\
     destination (workflow_of b) PhysicalDesign s = Goto RtlEngineer).
Proof.
  split; [| split; [| split; [| split; [| split; [| split]]]]].
  - intros b n s1 s2 H. rewrite workflow_of_scripted.
    now apply destination_status_only.
  - intros b s H. split.
    + unfold route_after_orchestrator. now rewrite status_eqb_true.
    + rewrite workflow_of_scripted. unfold scripted.
      rewrite destination_after_orchestrator. now rewrite status_eqb_true.
  - intros b s H. split.
    + unfold route_after_orchestrator. now rewrite status_eqb_false.
    + rewrite workflow_of_scripted. unfold scripted.
      rewrite destination_after_orchestrator. now rewrite status_eqb_false.
  - intros b s H. split.
    + unfold route_after_judge. now rewrite status_eqb_true.
    + rewrite workflow_of_scripted. unfold scripted.
      rewrite destination_after_judge. now rewrite status_eqb_true.
  - intros b s H. split.
    + unfold route_after_judge. rewrite H. reflexivity.
    + rewrite workflow_of_scripted. unfold scripted.
      rewrite destination_after_judge. rewrite H. reflexivity.
  - intros s H. split.
    + unfold route_after_physical_design. now rewrite status_eqb_true.
    + unfold airwave_agent_swarm.workflow.
      rewrite airwave_destination_after_physical_design.
      now rewrite status_eqb_true.
  - intros b s H. split.
    + unfold route_after_physical_design. rewrite H. reflexivity.
    + rewrite workflow_of_scripted. unfold scripted.
      rewrite destination_after_physical_design. rewrite H. reflexivity.
Qed.

Lemma router_transition_table_witness :
  destination (workflow_of Airwave) Judge
    (with_status "VERIFIED" exhausted_state)
  = destination (workflow_of Airwave) Judge
      (with_status "VERIFIED" bogus_state) /\
  destination (workflow_of Silicon4G) Orchestrator
    (with_status "HALTED" exhausted_state) = Goto HumanIntervention /\
  destination (workflow_of Airwave) Orchestrator
    (with_status "TASK_APPROVED" bogus_state) = Goto Librarian /\
  destination (workflow_of Silicon4G) Judge
    (with_status "VERIFIED" bogus_state) = Goto PhysicalDesign /\
  destination (workflow_of Airwave) Judge
    (with_status "FAILED_VERIFICATION" bogus_state) = Goto Orchestrator /\
  destination airwave_agent_swarm.workflow PhysicalDesign
    (with_status "GDSII_HARDENED" bogus_state) = ToEnd /\
  destination (workflow_of Silicon4G) PhysicalDesign
    (with_status "FAILED_HARDENING" bogus_state) = Goto RtlEngineer.
Proof.
  destruct router_transition_table
    as (Hpure & Hhalt & Happ & Hver & Hfail & Hhard & Hrework).
  split; [| split; [| split; [| split; [| split; [| split]]]]].
  - apply Hpure. reflexivity.
  - apply Hhalt. reflexivity.
  - apply Happ. simpl. discriminate.
  - apply Hver. reflexivity.
  - apply Hfail. reflexivity.
  - apply Hhard. reflexivity.
  - apply Hrework. reflexivity.
Defined.



(** C7, as stated, fails: the status BOGUS is in no row of the transition
    table, yet [route_after_orchestrator] sends it to librarian and
    [route_after_physical_design] sends it to rtl_engineer, in both
    scripts; no routing error is raised. *)
Lemma unknown_status_routed_silently :
  ~ In (status bogus_state) table_statuses /\
  route_after_orchestrator bogus_state = Some "librarian" /\
  route_after_physical_design bogus_state = Some "rtl_engineer" /\
  destination (workflow_of Airwave) Orchestrator bogus_state
    = Goto Librarian /\
  destination (workflow_of Silicon4G) Orchestrator bogus_state
    = Goto Librarian /\
  destination (workflow_of Airwave) PhysicalDesign bogus_state
    = Goto RtlEngineer /\
  destination (workflow_of Silicon4G) PhysicalDesign bogus_state
    = Goto RtlEngineer.
Proof.
  split.
  - simpl. intuition discriminate.
  - repeat split.
Qed.

(** C7, amended.  Only [route_after_judge] has no default branch: for a
    status other than VERIFIED and FAILED_VERIFICATION it returns no
    destination, and a run whose judge leaves such a status stops there
    with a routing error.  [route_after_orchestrator] sends every status
    other than HALTED to librarian, and [route_after_physical_design]
    sends every status other than GDSII_HARDENED to rtl_engineer. *)
Theorem unmapped_status_routing :
  (forall s, status s <> "VERIFIED" -> status s <> "FAILED_VERIFICATION" ->
     route_after_judge s = None) /\
  (forall b judge s fuel,
     status (merge s (judge s)) <> "VERIFIED" ->
     status (merge s (judge s)) <> "FAILED_VERIFICATION" ->
     run_from (build_of b judge) (S fuel) Judge s
     = ([mkEvent Judge s (merge s (judge s))],
        RoutingError Judge (status (merge s (judge s))))) /\
  (forall b judge s, status s <> "HALTED" ->
     route_after_orchestrator s = Some "librarian" /\
     destination (build_of b judge) Orchestrator s = Goto Librarian) /\
  (forall b judge s, status s <> "GDSII_HARDENED" ->
     route_after_physical_design s = Some "rtl_engineer" /\
     destination (build_of b judge) PhysicalDesign s = Goto RtlEngineer).
Proof.
  split; [| split; [| split]].
  - intros s H1 H2. unfold route_after_judge.
    now rewrite !status_eqb_false.
  - intros b judge s fuel H1 H2.
    assert (Hd : destination (build_of b judge) Judge (merge s (judge s))
                 = NoDest).
    { rewrite destination_after_judge. now rewrite !status_eqb_false. }
    assert (Hf : node_fn (build_of b judge) Judge = judge)
      by (destruct b; reflexivity).
    cbn [run_from]. unfold step. rewrite Hf, Hd. reflexivity.
  - intros b judge s H. split.
    + unfold route_after_orchestrator. now rewrite status_eqb_false.
    + rewrite destination_after_orchestrator. now rewrite status_eqb_false.
  - intros b judge s H. split.
    + unfold route_after_physical_design. now rewrite status_eqb_false.
    + rewrite destination_after_physical_design.
      now rewrite status_eqb_false.
Qed.

Lemma unmapped_status_routing_witness :
  route_after_judge bogus_state = None /\
  run_from (build_of Airwave silent_node) 1 Judge bogus_state
  = ([mkEvent Judge bogus_state bogus_state], RoutingError Judge "BOGUS") /\
  destination (build_of Silicon4G silent_node) Orchestrator bogus_state
  = Goto Librarian /\
  destination (build_of Airwave silent_node) PhysicalDesign bogus_state
  = Goto RtlEngineer.
Proof.
  destruct unmapped_status_routing as (Hjudge & Hrun & Horch & Hpd).
  split; [| split; [| split]].
  - apply Hjudge; simpl; discriminate.
  - apply (Hrun Airwave silent_node bogus_state O); simpl; discriminate.
  - apply (Horch Silicon4G silent_node bogus_state). simpl; discriminate.
  - apply (Hpd Airwave silent_node bogus_state). simpl; discriminate.
Defined.

(* ================================================================== *)
(** * 10. Stage updates and the retry counter *)
(* ================================================================== *)

(** Every recorded invocation is one step of its stage. *)
Lemma run_from_events (g : StateGraph) (fuel : nat) :
  forall (n : Stage) (s : SwarmState) (e : Event),
    In e (fst (run_from g fuel n s)) ->
    ev_output e = merge (ev_input e) (node_fn g (ev_stage e) (ev_input e)).
Proof.
  induction fuel as [| fuel IH]; intros n s e Hin; [contradiction |].
  cbn [run_from] in Hin. unfold step in Hin.
  destruct (destination g n (merge s (node_fn g n s))) as [m | | name |].
  - cbn [ev_output] in Hin.
    destruct (run_from g fuel m (merge s (node_fn g n s))) as [tr o] eqn:E.
    destruct Hin as [<- | Hin]; [reflexivity |].
    apply (IH m (merge s (node_fn g n s))). now rewrite E.
  - destruct Hin as [<- | []]; reflexivity.
  - destruct Hin as [<- | []]; reflexivity.
  - destruct Hin as [<- | []]; reflexivity.
Qed.

(** The update of any stage moves the counter by one exactly when it sets
    the failure status, and leaves it alone otherwise. *)
Lemma node_retry_count (b : Build) (tool_fails : SwarmState -> bool)
    (n : Stage) (s : SwarmState) :
  retry_count (merge s (node_fn (scripted b tool_fails) n s))
  = retry_count s
    + (if sets_status (node_fn (scripted b tool_fails) n s)
            "FAILED_VERIFICATION"
       then 1 else 0).
Proof.
  destruct b, n; cbn [scripted build_of node_fn airwave_agent_swarm.build
                        silicon_swarm_4g.build];
    unfold orchestrator_node, scripted_judge, judge_verdict;
    try (destruct (retry_count s >=? 5));
    try (destruct (tool_fails s));
    cbn; lia.
Qed.

(** C4.  The retry counter starts at 0 in both scripts.  Across every stage
    update of a run it never decreases: it grows by exactly 1 when the
    update is a transition into FAILED_VERIFICATION and keeps its value in
    every other update.  This holds whatever the verification tool
    answers, the scripts' own stand-in included. *)
Theorem retry_count_monotone (b : Build) (tool_fails : SwarmState -> bool) :
  retry_count (initial_state_of b) = 0 /\
  forall (fuel : nat) (s0 : SwarmState) (e : Event),
    In e (fst (run (scripted b tool_fails) fuel s0)) ->
    retry_count (ev_input e) <= retry_count (ev_output e) /\
    retry_count (ev_output e)
    = retry_count (ev_input e)
      + (if failed_verification (scripted b tool_fails) e then 1 else 0).
Proof.
  split; [destruct b; reflexivity |].
  intros fuel s0 e Hin.
  apply run_from_events in Hin. rewrite Hin.
  unfold failed_verification. rewrite node_retry_count.
  destruct (sets_status _ _); lia.
Qed.

Lemma retry_count_monotone_witness :
  In first_judge_event
    (fst (run (workflow_of Airwave) 10 airwave_agent_swarm.initial_state)) /\
  retry_count (ev_input first_judge_event)
    <= retry_count (ev_output first_judge_event) /\
  retry_count (ev_output first_judge_event)
    = retry_count (ev_input first_judge_event) + 1.
Proof.
  assert (Hin : In first_judge_event
                  (fst (run (workflow_of Airwave) 10
                          airwave_agent_swarm.initial_state))).
  { apply nth_In. vm_compute. lia. }
  split; [exact Hin |].
  exact (proj2 (retry_count_monotone Airwave simulated_failure)
           10%nat airwave_agent_swarm.initial_state first_judge_event Hin).
Defined.

(* ================================================================== *)
(** * 11. Reachable configurations *)
(* ================================================================== *)

Lemma advance_Reach (g : StateGraph) (s0 : SwarmState) (k : nat) :
  forall h d s, advance g k s0 = Some (h, d, s) -> Reach g s0 h d s.
Proof.
  induction k as [| k IH]; intros h d s H.
  - injection H as <- <- <-. constructor.
  - cbn [advance] in H.
    destruct (advance g k s0) as [[[h' d'] s'] |]; [| discriminate].
    destruct d' as [n | | |]; try discriminate.
    destruct (step g n s') as [e d''] eqn:E.
    injection H as <- <- <-.
    eapply Reach_step; [apply IH; reflexivity | exact E].
Qed.

(** Every prefix of the trace of a run is the history of a reachable
    configuration. *)
Lemma run_from_Reach (g : StateGraph) (s0 : SwarmState) (fuel : nat) :
  forall n s h,
    Reach g s0 h (Goto n) s ->
    forall pre e post,
      fst (run_from g fuel n s) = (pre ++ e :: post)%list ->
      exists d, Reach g s0 (e :: rev pre ++ h)%list d (ev_output e).
Proof.
  induction fuel as [| fuel IH]; intros n s h Hr pre e post Htr.
  - destruct pre; discriminate.
  - cbn [run_from] in Htr.
    destruct (step g n s) as [e0 d0] eqn:E.
    pose proof (Reach_step g s0 h n s e0 d0 Hr E) as Hr'.
    assert (Hhead : forall tl, (e0 :: tl = pre ++ e :: post)%list ->
              (pre = [] /\ e = e0 /\ post = tl) \/
              (exists pre', pre = e0 :: pre' /\ tl = (pre' ++ e :: post)%list)).
    { intros tl Heq. destruct pre as [| p pre']; simpl in Heq.
      - injection Heq as <- <-. now left.
      - injection Heq as <- ->. right. now exists pre'. }
    destruct d0 as [m | | name |].
    + destruct (run_from g fuel m (ev_output e0)) as [tr o] eqn:Erun.
      cbn [fst] in Htr.
      destruct (Hhead _ Htr) as [(-> & -> & _) | (pre' & -> & Htl)].
      * now exists (Goto m).
      * destruct (IH m (ev_output e0) (e0 :: h) Hr' pre' e post) as [d Hd].
        { now rewrite Erun. }
        exists d. simpl. now rewrite <- app_assoc.
    + cbn [fst] in Htr.
      destruct (Hhead _ Htr) as [(-> & -> & _) | (pre' & _ & Htl)].
      * now exists ToEnd.
      * destruct pre'; discriminate.
    + cbn [fst] in Htr.
      destruct (Hhead _ Htr) as [(-> & -> & _) | (pre' & _ & Htl)].
      * now exists (Unknown name).
      * destruct pre'; discriminate.
    + cbn [fst] in Htr.
      destruct (Hhead _ Htr) as [(-> & -> & _) | (pre' & _ & Htl)].
      * now exists NoDest.
      * destruct pre'; discriminate.
Qed.

(** Every state a run records is the state of a reachable configuration. *)
Corollary run_trace_reachable (g : StateGraph) (s0 : SwarmState)
    (fuel : nat) (pre : list Event) (e : Event) (post : list Event) :
  fst (run g fuel s0) = (pre ++ e :: post)%list ->
  exists d, Reach g s0 (e :: rev pre)%list d (ev_output e).
Proof.
  intros Htr.
  destruct (run_from_Reach g s0 fuel Orchestrator s0 [] (Reach_start g s0)
              pre e post Htr) as [d Hd].
  exists d. now rewrite app_nil_r in Hd.
Qed.

(* ================================================================== *)
(** * 12. The budget alert *)
(* ================================================================== *)

(** Only the orchestrator writes [budget_alert]. *)
Lemma node_budget_alert_other (b : Build) (tool_fails : SwarmState -> bool)
    (n : Stage) (s : SwarmState) :
  n <> Orchestrator ->
  budget_alert (merge s (node_fn (scripted b tool_fails) n s))
  = budget_alert s.
Proof.
  intros Hn.
  destruct b, n; try contradiction;
    cbn [scripted build_of node_fn airwave_agent_swarm.build
           silicon_swarm_4g.build];
    unfold scripted_judge, judge_verdict;
    try (destruct (tool_fails s)); reflexivity.
Qed.

(** No stage clears it. *)
Lemma node_budget_alert_kept (b : Build) (tool_fails : SwarmState -> bool)
    (n : Stage) (s : SwarmState) :
  budget_alert s = true ->
  budget_alert (merge s (node_fn (scripted b tool_fails) n s)) = true.
Proof.
  intros H. destruct n;
    try (rewrite node_budget_alert_other by discriminate; exact H).
  destruct b; cbn [scripted build_of node_fn airwave_agent_swarm.build
                     silicon_swarm_4g.build];
    unfold orchestrator_node; destruct (retry_count s >=? 5);
    simpl; auto.
Qed.

(** The invariant of the run: a halted state has the alert raised, and
    control only reaches the escalation node with the alert raised. *)
Lemma Reach_alert_invariant (b : Build) (tool_fails : SwarmState -> bool)
    (s0 : SwarmState) :
  (status s0 = "HALTED" -> budget_alert s0 = true) ->
  forall h d s,
    Reach (scripted b tool_fails) s0 h d s ->
    (status s = "HALTED" -> budget_alert s = true) /\
    (d = Goto HumanIntervention -> budget_alert s = true).
Proof.
  intros H0 h d s Hr.
  induction Hr as [| h n s e d Hr [IH1 IH2] Hstep].
  - split; [exact H0 | discriminate].
  - unfold step in Hstep. injection Hstep as <- <-. cbn [ev_output].
    destruct n.
    + (* orchestrator *)
      unfold scripted. rewrite destination_after_orchestrator.
      destruct b; cbn [build_of node_fn airwave_agent_swarm.build
                         silicon_swarm_4g.build];
        unfold orchestrator_node; destruct (retry_count s >=? 5);
        simpl; split; (reflexivity || discriminate).
    + destruct b; simpl; split; discriminate.
    + destruct b; simpl; split; discriminate.
    + unfold scripted. rewrite destination_after_judge.
      destruct b; cbn [build_of node_fn airwave_agent_swarm.build
                         silicon_swarm_4g.build];
        unfold scripted_judge, judge_verdict; destruct (tool_fails s);
        simpl; split; discriminate.
    + unfold scripted. rewrite destination_after_physical_design.
      destruct b; simpl; split; discriminate.
    + (* human_intervention *)
      destruct b; simpl.
      * split; [exact IH1 | discriminate].
      * split; [| discriminate]. intros _. now apply IH2.
Qed.

(** C6.  [budget_alert] starts false.  In every reachable state of a run,
    status HALTED implies that it is true.  No stage other than the
    orchestrator changes it, and no stage update makes it false once it is
    true.  This holds whatever the verification tool answers. *)
Theorem halted_implies_budget_alert (b : Build)
    (tool_fails : SwarmState -> bool) :
  budget_alert (initial_state_of b) = false /\
  (forall s0 h d s,
     (status s0 = "HALTED" -> budget_alert s0 = true) ->
     Reach (scripted b tool_fails) s0 h d s ->
     status s = "HALTED" -> budget_alert s = true) /\
  (forall n s, n <> Orchestrator ->
     budget_alert (merge s (node_fn (scripted b tool_fails) n s))
     = budget_alert s) /\
  (forall n s, budget_alert s = true ->
     budget_alert (merge s (node_fn (scripted b tool_fails) n s)) = true).
Proof.
  split; [destruct b; reflexivity |].
  split; [| split].
  - intros s0 h d s H0 Hr.
    apply (Reach_alert_invariant b tool_fails s0 H0 h d s Hr).
  - intros n s. apply node_budget_alert_other.
  - intros n s. apply node_budget_alert_kept.
Qed.

Lemma halted_implies_budget_alert_witness :
  status halted_state = "HALTED" /\
  budget_alert halted_state = true /\
  budget_alert
    (merge halted_state (node_fn (workflow_of Silicon4G) HumanIntervention
                           halted_state))
  = budget_alert halted_state /\
  budget_alert
    (merge halted_state (node_fn (workflow_of Silicon4G) Librarian
                           halted_state)) = true.
Proof.
  destruct (halted_implies_budget_alert Silicon4G simulated_failure)
    as (_ & Hinv & Honly & Hkept).
  assert (Hhalted : status halted_state = "HALTED") by reflexivity.
  assert (Halert : budget_alert halted_state = true).
  { apply (Hinv exhausted_state
             [mkEvent Orchestrator exhausted_state halted_state]
             (Goto HumanIntervention) halted_state).
    - simpl. discriminate.
    - apply (Reach_step _ _ [] Orchestrator exhausted_state
               (mkEvent Orchestrator exhausted_state halted_state)
               (Goto HumanIntervention)).
      + apply Reach_start.
      + reflexivity.
    - exact Hhalted. }
  split; [exact Hhalted |]. split; [exact Halert |]. split.
  - apply (Honly HumanIntervention halted_state). discriminate.
  - apply (Hkept Librarian halted_state). exact Halert.
Defined.

(* ================================================================== *)
(** * 13. The verification feedback *)
(* ================================================================== *)

(** C5, as stated, fails: after the first verification failure the
    orchestrator runs next and sets TASK_APPROVED while the correction
    package stays in the state, so five stage invocations into the run of
    [airwave_agent_swarm.py] the feedback is present although the status
    is not FAILED_VERIFICATION. *)
Lemma feedback_outlives_failed_status :
  ~ (forall h d s,
       Reach airwave_agent_swarm.workflow
         airwave_agent_swarm.initial_state h d s ->
       (judge_feedback s <> None <-> status s = "FAILED_VERIFICATION")).
Proof.
  intros H.
  destruct (advance airwave_agent_swarm.workflow 5
              airwave_agent_swarm.initial_state)
    as [[[h d] s] |] eqn:E; [| vm_compute in E; discriminate].
  specialize (H h d s (advance_Reach _ _ _ _ _ _ E)).
  vm_compute in E. injection E as <- <- <-.
  destruct H as [H _].
  assert (Hst : "TASK_APPROVED" = "FAILED_VERIFICATION")
    by (apply H; discriminate).
  discriminate Hst.
Qed.

Lemma node_feedback_other (b : Build) (tool_fails : SwarmState -> bool)
    (n : Stage) (s : SwarmState) :
  is_judge n = false ->
  judge_feedback (merge s (node_fn (scripted b tool_fails) n s))
  = judge_feedback s.
Proof.
  intros Hn.
  destruct b, n; try discriminate;
    cbn [scripted build_of node_fn airwave_agent_swarm.build
           silicon_swarm_4g.build];
    unfold orchestrator_node;
    try (destruct (retry_count s >=? 5)); reflexivity.
Qed.

(** Outside the judge, a stage that leaves FAILED_VERIFICATION in the
    state found it there. *)
Lemma node_status_other (b : Build) (tool_fails : SwarmState -> bool)
    (n : Stage) (s : SwarmState) :
  is_judge n = false ->
  status (merge s (node_fn (scripted b tool_fails) n s))
  = "FAILED_VERIFICATION" ->
  status s = "FAILED_VERIFICATION".
Proof.
  intros Hn.
  destruct b, n; try discriminate;
    cbn [scripted build_of node_fn airwave_agent_swarm.build
           silicon_swarm_4g.build];
    unfold orchestrator_node;
    try (destruct (retry_count s >=? 5)); simpl;
    (discriminate || auto).
Qed.

Lemma node_judge_feedback (b : Build) (tool_fails : SwarmState -> bool)
    (s : SwarmState) :
  let s' := merge s (node_fn (scripted b tool_fails) Judge s) in
  (tool_fails s = true /\ judge_feedback s' = Some (feedback_of b) /\
   status s' = "FAILED_VERIFICATION") \/
  (tool_fails s = false /\ judge_feedback s' = None /\
   status s' = "VERIFIED").
Proof.
  destruct b; cbn [scripted build_of node_fn airwave_agent_swarm.build
                     silicon_swarm_4g.build];
    unfold scripted_judge, judge_verdict; destruct (tool_fails s);
    simpl; auto.
Qed.

(** C5, amended.  In every reachable state of a run that starts without
    feedback and outside FAILED_VERIFICATION, the correction package is
    present exactly when the most recent verification outcome was a
    failure, and status FAILED_VERIFICATION implies that it is present.
    (It stays present through the orchestrator, librarian and rtl_engineer
    invocations that follow the failure.) *)
Theorem feedback_tracks_last_verification (b : Build)
    (tool_fails : SwarmState -> bool) (s0 : SwarmState)
    (h : list Event) (d : Dest) (s : SwarmState) :
  judge_feedback s0 = None ->
  status s0 <> "FAILED_VERIFICATION" ->
  Reach (scripted b tool_fails) s0 h d s ->
  (judge_feedback s <> None <-> last_verification_failed h = true) /\
  (status s = "FAILED_VERIFICATION" -> judge_feedback s <> None).
Proof.
  intros Hfb Hst Hr.
  induction Hr as [| h n s e d Hr [IH1 IH2] Hstep].
  - rewrite Hfb. split; [split; [congruence | discriminate] | congruence].
  - unfold step in Hstep. injection Hstep as <- _.
    unfold last_verification_failed. cbn [find ev_stage ev_output].
    destruct (is_judge n) eqn:Hn; cbn [ev_output].
    + destruct n; try discriminate.
      destruct (node_judge_feedback b tool_fails s)
        as [(_ & -> & ->) | (_ & -> & ->)]; simpl.
      * split; [split; [reflexivity | discriminate] | discriminate].
      * split; [split; [congruence | discriminate] | discriminate].
    + rewrite (node_feedback_other b tool_fails n s Hn).
      split; [exact IH1 |].
      intros H. apply IH2.
      exact (node_status_other b tool_fails n s Hn H).
Qed.

Lemma feedback_tracks_last_verification_witness :
  status (snd approved_retry) = "TASK_APPROVED" /\
  (judge_feedback (snd approved_retry) <> None <->
   last_verification_failed (fst (fst approved_retry)) = true) /\
  (status (snd approved_retry) = "FAILED_VERIFICATION" ->
   judge_feedback (snd approved_retry) <> None).
Proof.
  split; [reflexivity |].
  apply (feedback_tracks_last_verification Airwave simulated_failure
           airwave_agent_swarm.initial_state
           (fst (fst approved_retry)) (snd (fst approved_retry))
           (snd approved_retry)).
  - reflexivity.
  - simpl. discriminate.
  - apply (advance_Reach _ _ 5). reflexivity.
Defined.

(* ================================================================== *)
(** * 14. Bounded retries *)
(* ================================================================== *)

(** The control flow of the graph, stage by stage. *)
Lemma scripted_destination (b : Build) (tool_fails : SwarmState -> bool)
    (n : Stage) (s : SwarmState) :
  destination (scripted b tool_fails) n
    (merge s (node_fn (scripted b tool_fails) n s))
  = match n with
    | Orchestrator =>
        if retry_count s >=? 5 then Goto HumanIntervention else Goto Librarian
    | Librarian => Goto RtlEngineer
    | RtlEngineer => Goto Judge
    | Judge => if tool_fails s then Goto Orchestrator else Goto PhysicalDesign
    | PhysicalDesign =>
        match b with Airwave => ToEnd | Silicon4G => Unknown "end" end
    | HumanIntervention => ToEnd
    end.
Proof.
  destruct n.
  - unfold scripted. rewrite destination_after_orchestrator.
    destruct b; cbn [build_of node_fn airwave_agent_swarm.build
                       silicon_swarm_4g.build];
      unfold orchestrator_node; destruct (retry_count s >=? 5); reflexivity.
  - destruct b; reflexivity.
  - destruct b; reflexivity.
  - unfold scripted. rewrite destination_after_judge.
    destruct b; cbn [build_of node_fn airwave_agent_swarm.build
                       silicon_swarm_4g.build];
      unfold scripted_judge, judge_verdict; destruct (tool_fails s);
      reflexivity.
  - unfold scripted. rewrite destination_after_physical_design.
    destruct b; reflexivity.
  - destruct b; reflexivity.
Qed.

(** Only a failing judge makes a FAILED_VERIFICATION transition. *)
Lemma scripted_failed_verification (b : Build)
    (tool_fails : SwarmState -> bool) (n : Stage) (s s' : SwarmState) :
  failed_verification (scripted b tool_fails) (mkEvent n s s')
  = match n with Judge => tool_fails s | _ => false end.
Proof.
  unfold failed_verification. cbn [ev_stage ev_input].
  destruct b, n; cbn [scripted build_of node_fn airwave_agent_swarm.build
                        silicon_swarm_4g.build];
    unfold orchestrator_node, scripted_judge, judge_verdict;
    try (destruct (retry_count s >=? 5));
    try (destruct (tool_fails s)); reflexivity.
Qed.

Lemma halts_cleanly_nil : halts_cleanly [].
Proof. intros pre e post H. destruct pre; discriminate. Qed.

Lemma halts_cleanly_cons (e0 : Event) (tr : list Event) :
  (ev_stage e0 = Orchestrator ->
   RETRY_LIMIT <= retry_count (ev_input e0) ->
   status (ev_output e0) = "HALTED" /\
   budget_alert (ev_output e0) = true /\
   Forall (fun e' => is_worker (ev_stage e') = false) tr) ->
  halts_cleanly tr ->
  halts_cleanly (e0 :: tr).
Proof.
  intros Hhead Htail pre e post Heq.
  destruct pre as [| p pre]; simpl in Heq.
  - injection Heq as <- <-. exact Hhead.
  - injection Heq as _ ->. now apply (Htail pre e post).
Qed.

Lemma count_failed_verification_cons (g : StateGraph) (e : Event)
    (tr : list Event) :
  count_failed_verification g (e :: tr)
  = (if failed_verification g e then 1 else 0)
    + count_failed_verification g tr.
Proof.
  unfold count_failed_verification. cbn [filter].
  destruct (failed_verification g e); cbn [length]; lia.
Qed.

Lemma ends_within_le (g : StateGraph) (k k' : Z) (r : list Event * Outcome) :
  k <= k' -> ends_within g k r -> ends_within g k' r.
Proof.
  intros Hle (H1 & H2 & H3). split; [exact H1 | split; [lia | exact H3]].
Qed.

Lemma run_from_S (g : StateGraph) (f : nat) (n : Stage) (s : SwarmState) :
  run_from g (S f) n s
  = match destination g n (merge s (node_fn g n s)) with
    | Goto m =>
        (mkEvent n s (merge s (node_fn g n s))
           :: fst (run_from g f m (merge s (node_fn g n s))),
         snd (run_from g f m (merge s (node_fn g n s))))
    | ToEnd => ([mkEvent n s (merge s (node_fn g n s))], Finished)
    | Unknown name =>
        ([mkEvent n s (merge s (node_fn g n s))], Unrouted name)
    | NoDest =>
        ([mkEvent n s (merge s (node_fn g n s))],
         RoutingError n (status (merge s (node_fn g n s))))
    end.
Proof.
  cbn [run_from]. unfold step.
  destruct (destination g n (merge s (node_fn g n s))); try reflexivity.
  cbn [ev_output].
  destruct (run_from g f n0 (merge s (node_fn g n s))); reflexivity.
Qed.

(** A stage that hands over to the next one, the orchestrator at the
    ceiling excepted, adds its own failure (if any) to the count. *)
Lemma ends_within_goto (g : StateGraph) (k : Z) (f : nat) (n m : Stage)
    (s : SwarmState) :
  destination g n (merge s (node_fn g n s)) = Goto m ->
  (n = Orchestrator -> retry_count s < RETRY_LIMIT) ->
  ends_within g k (run_from g f m (merge s (node_fn g n s))) ->
  ends_within g
    ((if failed_verification g (mkEvent n s (merge s (node_fn g n s)))
      then 1 else 0) + k)
    (run_from g (S f) n s).
Proof.
  intros Hd Hn (H1 & H2 & H3). rewrite run_from_S, Hd.
  unfold ends_within. cbn [fst snd].
  split; [exact H1 |]. split.
  - rewrite count_failed_verification_cons. lia.
  - apply halts_cleanly_cons; [| exact H3].
    cbn [ev_stage ev_input]. intros Ho Hr. specialize (Hn Ho). lia.
Qed.

(** A stage after which the run stops. *)
Lemma ends_within_stop (g : StateGraph) (f : nat) (n : Stage)
    (s : SwarmState) :
  (forall m, destination g n (merge s (node_fn g n s)) <> Goto m) ->
  n <> Orchestrator ->
  failed_verification g (mkEvent n s (merge s (node_fn g n s))) = false ->
  ends_within g 0 (run_from g (S f) n s).
Proof.
  intros Hd Hn Hf. rewrite run_from_S.
  assert (Hone : ends_within g 0
                   ([mkEvent n s (merge s (node_fn g n s))], Finished)).
  { unfold ends_within. cbn [fst snd]. split; [discriminate |]. split.
    - rewrite count_failed_verification_cons, Hf. reflexivity.
    - apply halts_cleanly_cons; [| apply halts_cleanly_nil].
      cbn [ev_stage]. intros Ho. contradiction. }
  destruct Hone as (_ & H2 & H3).
  destruct (destination g n (merge s (node_fn g n s))) as [m | | name |].
  - exfalso. now apply (Hd m).
  - split; [discriminate | split; assumption].
  - split; [discriminate | split; assumption].
  - split; [discriminate | split; assumption].
Qed.

(** At the ceiling the orchestrator halts and the run ends in the
    escalation node. *)
Lemma orchestrator_halts_run (b : Build) (tool_fails : SwarmState -> bool)
    (f : nat) (s : SwarmState) :
  RETRY_LIMIT <= retry_count s ->
  ends_within (scripted b tool_fails) 0
    (run_from (scripted b tool_fails) (S (S f)) Orchestrator s).
Proof.
  intros Hr.
  assert (Hge : (retry_count s >=? 5) = true).
  { rewrite Z.geb_leb. apply Z.leb_le. exact Hr. }
  pose proof (ends_within_stop (scripted b tool_fails) f HumanIntervention
                (merge s (node_fn (scripted b tool_fails) Orchestrator s)))
    as Hsink.
  destruct Hsink as (H1 & H2 & H3).
  { intros m. rewrite scripted_destination. discriminate. }
  { discriminate. }
  { apply scripted_failed_verification. }
  rewrite run_from_S, scripted_destination, Hge.
  unfold ends_within. cbn [fst snd].
  split; [exact H1 |]. split.
  - rewrite count_failed_verification_cons, scripted_failed_verification.
    lia.
  - apply halts_cleanly_cons; [| exact H3].
    intros _ _. cbn [ev_output].
    assert (Hnode : node_fn (scripted b tool_fails) Orchestrator s
                    = [set_status "HALTED"; set_budget_alert true]).
    { destruct b; cbn [scripted build_of node_fn airwave_agent_swarm.build
                         silicon_swarm_4g.build];
        now apply orchestrator_node_halts. }
    rewrite Hnode. split; [reflexivity |]. split; [reflexivity |].
    rewrite run_from_S, scripted_destination. cbn [fst].
    constructor; [reflexivity | constructor].
Qed.

Lemma scripted_retry_count (b : Build) (tool_fails : SwarmState -> bool)
    (n : Stage) (s : SwarmState) :
  retry_count (merge s (node_fn (scripted b tool_fails) n s))
  = retry_count s
    + match n with
      | Judge => if tool_fails s then 1 else 0
      | _ => 0
      end.
Proof.
  rewrite node_retry_count.
  change (sets_status (node_fn (scripted b tool_fails) n s)
            "FAILED_VERIFICATION")
    with (failed_verification (scripted b tool_fails)
            (mkEvent n s (merge s (node_fn (scripted b tool_fails) n s)))).
  rewrite scripted_failed_verification. destruct n; reflexivity.
Qed.

(** The termination argument: every verification failure uses up one unit
    of the remaining budget [RETRY_LIMIT - retry_count], and a cycle from
    the orchestrator back to it takes four stage invocations. *)
Lemma orchestrator_run_bounded (b : Build) (tool_fails : SwarmState -> bool) :
  forall (k : nat) (s : SwarmState) (f : nat),
    Z.to_nat (RETRY_LIMIT - retry_count s) = k ->
    (4 * k + 2 <= f)%nat ->
    ends_within (scripted b tool_fails) (Z.of_nat k)
      (run_from (scripted b tool_fails) f Orchestrator s).
Proof.
  induction k as [| k IH]; intros s f Hk Hf.
  - destruct f as [| [| f]]; try lia.
    apply orchestrator_halts_run. lia.
  - destruct f as [| [| [| [| f]]]]; try lia.
    assert (Hlt : retry_count s < RETRY_LIMIT) by lia.
    assert (Hge : (retry_count s >=? 5) = false).
    { rewrite Z.geb_leb. apply Z.leb_gt. exact Hlt. }
    set (g := scripted b tool_fails).
    set (s1 := merge s (node_fn g Orchestrator s)).
    set (s2 := merge s1 (node_fn g Librarian s1)).
    set (s3 := merge s2 (node_fn g RtlEngineer s2)).
    assert (Hrc3 : retry_count s3 = retry_count s).
    { unfold s3, s2, s1, g. rewrite !scripted_retry_count. lia. }
    assert (Hjudge : ends_within g (Z.of_nat (S k))
                       (run_from g (S f) Judge s3)).
    { destruct (tool_fails s3) eqn:Etool.
      - apply (ends_within_le g
                 ((if failed_verification g
                        (mkEvent Judge s3 (merge s3 (node_fn g Judge s3)))
                   then 1 else 0) + Z.of_nat k)).
        + unfold g. rewrite scripted_failed_verification, Etool. lia.
        + apply (ends_within_goto g (Z.of_nat k) f Judge Orchestrator s3).
          * unfold g. now rewrite scripted_destination, Etool.
          * discriminate.
          * apply IH; [| lia].
            unfold g. rewrite scripted_retry_count, Etool. lia.
      - apply (ends_within_le g
                 ((if failed_verification g
                        (mkEvent Judge s3 (merge s3 (node_fn g Judge s3)))
                   then 1 else 0) + 0)).
        + unfold g. rewrite scripted_failed_verification, Etool. lia.
        + apply (ends_within_goto g 0 f Judge PhysicalDesign s3).
          * unfold g. now rewrite scripted_destination, Etool.
          * discriminate.
          * destruct f as [| f]; [lia |].
            apply ends_within_stop.
            -- intros m. unfold g. rewrite scripted_destination.
               destruct b; discriminate.
            -- discriminate.
            -- apply scripted_failed_verification. }
    assert (Hrtl : ends_within g (Z.of_nat (S k))
                     (run_from g (S (S f)) RtlEngineer s2)).
    { apply (ends_within_le g
               ((if failed_verification g (mkEvent RtlEngineer s2 s3)
                 then 1 else 0) + Z.of_nat (S k))).
      - unfold g. rewrite scripted_failed_verification. lia.
      - apply (ends_within_goto g _ (S f) RtlEngineer Judge s2).
        + unfold g. now rewrite scripted_destination.
        + discriminate.
        + exact Hjudge. }
    assert (Hlib : ends_within g (Z.of_nat (S k))
                     (run_from g (S (S (S f))) Librarian s1)).
    { apply (ends_within_le g
               ((if failed_verification g (mkEvent Librarian s1 s2)
                 then 1 else 0) + Z.of_nat (S k))).
      - unfold g. rewrite scripted_failed_verification. lia.
      - apply (ends_within_goto g _ (S (S f)) Librarian RtlEngineer s1).
        + unfold g. now rewrite scripted_destination.
        + discriminate.
        + exact Hrtl. }
    apply (ends_within_le g
             ((if failed_verification g (mkEvent Orchestrator s s1)
               then 1 else 0) + Z.of_nat (S k))).
    + unfold g. rewrite scripted_failed_verification. lia.
    + apply (ends_within_goto g _ (S (S (S f))) Orchestrator Librarian s).
      * unfold g. now rewrite scripted_destination, Hge.
      * intros _. exact Hlt.
      * exact Hlib.
Qed.

(** C2.  A run that starts with a non-negative retry count ends within 22
    stage invocations, whatever the verification tool answers (the
    scripts' own stand-in included): it makes at most RETRY_LIMIT
    FAILED_VERIFICATION transitions, and once the orchestrator is handed a
    retry count at the ceiling it sets HALTED and the budget alert, and no
    librarian, rtl_engineer, judge or physical_design invocation follows. *)
Theorem run_terminates_within_budget (b : Build)
    (tool_fails : SwarmState -> bool) (s0 : SwarmState) (fuel : nat) :
  0 <= retry_count s0 ->
  (22 <= fuel)%nat ->
  bounded_run (scripted b tool_fails) fuel s0.
Proof.
  intros H0 Hfuel. unfold bounded_run, run.
  apply (ends_within_le _ (Z.of_nat (Z.to_nat (RETRY_LIMIT - retry_count s0)))).
  - unfold RETRY_LIMIT. lia.
  - apply orchestrator_run_bounded; [reflexivity |].
    unfold RETRY_LIMIT. lia.
Qed.

Lemma run_terminates_within_budget_witness :
  bounded_run (workflow_of Silicon4G) 22 silicon_swarm_4g.initial_state /\
  bounded_run (workflow_of Airwave) 30 exhausted_state.
Proof.
  split.
  - apply (run_terminates_within_budget Silicon4G simulated_failure
             silicon_swarm_4g.initial_state 22).
    + simpl. lia.
    + lia.
  - apply (run_terminates_within_budget Airwave simulated_failure
             exhausted_state 30).
    + simpl. lia.
    + lia.
Defined.

(** The ceiling is reached when the tool keeps failing: five failures, then
    the orchestrator halts and the run ends in the escalation node. *)
Example budget_exhaustion (b : Build) :
  let r := run (scripted b (fun _ => true)) 22 (initial_state_of b) in
  snd r = Finished /\
  count_failed_verification (scripted b (fun _ => true)) (fst r)
  = RETRY_LIMIT /\
  length (fst r) = 22%nat /\
  map ev_stage (skipn 20 (fst r)) = [Orchestrator; HumanIntervention] /\
  status (final_state (initial_state_of b) (fst r)) = "HALTED" /\
  retry_count (final_state (initial_state_of b) (fst r)) = 5 /\
  budget_alert (final_state (initial_state_of b) (fst r)) = true.
Proof. destruct b; vm_compute; repeat split; reflexivity. Qed.

(* ================================================================== *)
(** * 15. One correction cycle *)
(* ================================================================== *)


(* ================================================================== *)
(** * 16. The two scripts run in lockstep *)
(* ================================================================== *)

(** The status a stage leaves: every stage writes one, except the
    escalation node of [airwave_agent_swarm.py], which writes nothing. *)
Lemma scripted_status (b : Build) (tool_fails : SwarmState -> bool)
    (n : Stage) (s : SwarmState) :
  status (merge s (node_fn (scripted b tool_fails) n s))
  = match n with
    | Orchestrator =>
        if retry_count s >=? 5 then "HALTED" else "TASK_APPROVED"
    | Librarian => "SPEC_READY"
    | RtlEngineer => "CODED"
    | Judge => if tool_fails s then "FAILED_VERIFICATION" else "VERIFIED"
    | PhysicalDesign => "GDSII_HARDENED"
    | HumanIntervention =>
        match b with Airwave => status s | Silicon4G => "HALTED" end
    end.
Proof.
  destruct b, n; cbn [scripted build_of node_fn airwave_agent_swarm.build
                        silicon_swarm_4g.build];
    unfold orchestrator_node, scripted_judge, judge_verdict;
    try (destruct (retry_count s >=? 5));
    try (destruct (tool_fails s)); reflexivity.
Qed.

Lemma scripted_budget_alert (b : Build) (tool_fails : SwarmState -> bool)
    (n : Stage) (s : SwarmState) :
  budget_alert (merge s (node_fn (scripted b tool_fails) n s))
  = match n with
    | Orchestrator => if retry_count s >=? 5 then true else budget_alert s
    | _ => budget_alert s
    end.
Proof.
  destruct n; try (apply node_budget_alert_other; discriminate).
  destruct b; cbn [scripted build_of node_fn airwave_agent_swarm.build
                     silicon_swarm_4g.build];
    unfold orchestrator_node; destruct (retry_count s >=? 5); reflexivity.
Qed.

Lemma visible_step (b : Build) (tool_fails : SwarmState -> bool)
    (n : Stage) (s : SwarmState) :
  visible (mkEvent n s (merge s (node_fn (scripted b tool_fails) n s)))
  = (n,
     status (merge s (node_fn (scripted b tool_fails) n s)),
     retry_count (merge s (node_fn (scripted b tool_fails) n s)),
     budget_alert (merge s (node_fn (scripted b tool_fails) n s))).
Proof. reflexivity. Qed.

(** A stage treats the rest of the state alike in both scripts, when it
    takes the same branch in both. *)
Lemma outline_of_step (n : Stage) (s1 s2 : SwarmState) :
  retry_count s1 = retry_count s2 ->
  outline_of s1 = outline_of s2 ->
  outline_of (merge s1 (node_fn (scripted Airwave simulated_failure) n s1))
  = outline_of
      (merge s2 (node_fn (scripted Silicon4G simulated_failure) n s2)).
Proof.
  intros Hrc Ho. unfold outline_of in Ho.
  injection Ho as Htask Hspec Hrtl Hfb Hpd.
  destruct n; cbn [scripted build_of node_fn airwave_agent_swarm.build
                     silicon_swarm_4g.build];
    unfold orchestrator_node, scripted_judge, judge_verdict,
      simulated_failure;
    try rewrite <- Hrc;
    try (destruct (retry_count s1 >=? 5));
    try (destruct (retry_count s1 =? 0));
    unfold outline_of; simpl; congruence.
Qed.

(** The lockstep simulation: from the same stage, on states that agree on
    the retry count and the alert (and are halted when the stage is the
    escalation node), the two graphs make the same visible moves. *)
Lemma lockstep (fuel : nat) :
  forall (n : Stage) (s1 s2 : SwarmState),
    retry_count s1 = retry_count s2 ->
    budget_alert s1 = budget_alert s2 ->
    (n = HumanIntervention -> status s1 = "HALTED") ->
    lockstep_goal fuel n s1 s2.
Proof.
  induction fuel as [| fuel IH]; intros n s1 s2 Hrc Hal Hhalt;
    unfold lockstep_goal.
  - split; [reflexivity | split; [tauto | reflexivity]].
  - assert (Hvis :
      visible (mkEvent n s1
                 (merge s1 (node_fn (scripted Airwave simulated_failure) n s1)))
      = visible (mkEvent n s2
                 (merge s2
                    (node_fn (scripted Silicon4G simulated_failure) n s2)))).
    { rewrite !visible_step, !scripted_status, !scripted_retry_count,
        !scripted_budget_alert.
      unfold simulated_failure. rewrite Hrc, Hal.
      destruct n; try reflexivity. now rewrite Hhalt. }
    assert (Hsf : simulated_failure s2 = simulated_failure s1)
      by (unfold simulated_failure; now rewrite Hrc).
    assert (Hout : outline_of s1 = outline_of s2 ->
      outline_of
        (merge s1 (node_fn (scripted Airwave simulated_failure) n s1))
      = outline_of
          (merge s2 (node_fn (scripted Silicon4G simulated_failure) n s2))).
    { intros Ho. apply outline_of_step; assumption. }
    assert (Hfollow : forall m,
      (m = HumanIntervention ->
       n = Orchestrator /\ (retry_count s1 >=? 5) = true) ->
      lockstep_goal fuel m
        (merge s1 (node_fn (scripted Airwave simulated_failure) n s1))
        (merge s2 (node_fn (scripted Silicon4G simulated_failure) n s2))).
    { intros m Hm. apply IH.
      - rewrite !scripted_retry_count. now rewrite Hrc, Hsf.
      - rewrite !scripted_budget_alert. now rewrite Hrc, Hal.
      - intros Heq. destruct (Hm Heq) as [-> Hge].
        rewrite scripted_status. now rewrite Hge. }
    unfold lockstep_goal in Hfollow.
    rewrite !run_from_S, !scripted_destination. rewrite <- Hrc, Hsf.
    destruct n.
    + destruct (retry_count s1 >=? 5) eqn:Hge; cbn [fst snd map];
        rewrite Hvis.
      * destruct (Hfollow HumanIntervention) as (Ht & Ho & Hl);
          [now split |].
        rewrite Ht. split; [reflexivity | split; [exact Ho |]].
        intros Heq. unfold outline at 1 3. cbn [ev_stage ev_output].
        now rewrite (Hout Heq), (Hl (Hout Heq)).
      * destruct (Hfollow Librarian) as (Ht & Ho & Hl); [discriminate |].
        rewrite Ht. split; [reflexivity | split; [exact Ho |]].
        intros Heq. unfold outline at 1 3. cbn [ev_stage ev_output].
        now rewrite (Hout Heq), (Hl (Hout Heq)).
    + cbn [fst snd map]. rewrite Hvis.
      destruct (Hfollow RtlEngineer) as (Ht & Ho & Hl); [discriminate |].
      rewrite Ht. split; [reflexivity | split; [exact Ho |]].
      intros Heq. unfold outline at 1 3. cbn [ev_stage ev_output].
      now rewrite (Hout Heq), (Hl (Hout Heq)).
    + cbn [fst snd map]. rewrite Hvis.
      destruct (Hfollow Judge) as (Ht & Ho & Hl); [discriminate |].
      rewrite Ht. split; [reflexivity | split; [exact Ho |]].
      intros Heq. unfold outline at 1 3. cbn [ev_stage ev_output].
      now rewrite (Hout Heq), (Hl (Hout Heq)).
    + destruct (simulated_failure s1); cbn [fst snd map]; rewrite Hvis.
      * destruct (Hfollow Orchestrator) as (Ht & Ho & Hl); [discriminate |].
        rewrite Ht. split; [reflexivity | split; [exact Ho |]].
        intros Heq. unfold outline at 1 3. cbn [ev_stage ev_output].
        now rewrite (Hout Heq), (Hl (Hout Heq)).
      * destruct (Hfollow PhysicalDesign) as (Ht & Ho & Hl);
          [discriminate |].
        rewrite Ht. split; [reflexivity | split; [exact Ho |]].
        intros Heq. unfold outline at 1 3. cbn [ev_stage ev_output].
        now rewrite (Hout Heq), (Hl (Hout Heq)).
    + cbn [fst snd map]. rewrite Hvis. split; [reflexivity |].
      split; [split; discriminate |].
      intros Heq. unfold outline. cbn [ev_stage ev_output].
      now rewrite (Hout Heq).
    + cbn [fst snd map]. rewrite Hvis. split; [reflexivity |].
      split; [split; discriminate |].
      intros Heq. unfold outline. cbn [ev_stage ev_output].
      now rewrite (Hout Heq).
Qed.

(** C10.  From every initial state the workflows of
    [airwave_agent_swarm.py] and [silicon_swarm_4g.py] invoke the same
    sequence of stages and leave the same sequence of
    (status, retry_count, budget_alert) values; the states they go through
    further agree on [task_description], on [pd_feedback] and on which of
    [spec_block], [rtl_code] and [judge_feedback] are present, and one run
    exhausts its fuel exactly when the other does.  The same holds of the
    visible moves of the two scripts started from their own initial
    states.  The escalation nodes differ: one writes nothing, the other
    writes status HALTED. *)
Theorem builds_run_in_lockstep :
  (forall (fuel : nat) (s0 : SwarmState),
     map visible (fst (run (workflow_of Airwave) fuel s0))
     = map visible (fst (run (workflow_of Silicon4G) fuel s0)) /\
     map outline (fst (run (workflow_of Airwave) fuel s0))
     = map outline (fst (run (workflow_of Silicon4G) fuel s0)) /\
     (snd (run (workflow_of Airwave) fuel s0) = OutOfFuel
      <-> snd (run (workflow_of Silicon4G) fuel s0) = OutOfFuel)) /\
  (forall fuel : nat,
     map visible
       (fst (run (workflow_of Airwave) fuel (initial_state_of Airwave)))
     = map visible
         (fst (run (workflow_of Silicon4G) fuel
                 (initial_state_of Silicon4G)))) /\
  (forall s : SwarmState,
     node_fn (workflow_of Airwave) HumanIntervention s = [] /\
     node_fn (workflow_of Silicon4G) HumanIntervention s
     = [set_status "HALTED"]).
Proof.
  split; [| split].
  - intros fuel s0.
    destruct (lockstep fuel Orchestrator s0 s0 eq_refl eq_refl)
      as (Hvis & Hfuel & Hout); [discriminate |].
    split; [exact Hvis |]. split; [exact (Hout eq_refl) | exact Hfuel].
  - intros fuel.
    destruct (lockstep fuel Orchestrator (initial_state_of Airwave)
                (initial_state_of Silicon4G) eq_refl eq_refl)
      as (Hvis & _ & _); [discriminate |].
    exact Hvis.
  - intros s. split; reflexivity.
Qed.

(* ================================================================== *)
(** * 17. The verification bench: unpacking a stream word *)
(* ================================================================== *)

Lemma land_65535 (a : Z) : Z.land a 65535 = a mod 65536.
Proof. change 65535 with (Z.ones 16). now rewrite Z.land_ones. Qed.

Lemma unpack_tdata_mod (raw : Z) :
  unpack_tdata raw
  = ((if raw mod 65536 >? 32767 then raw mod 65536 - 65536
      else raw mod 65536),
     (if (raw / 65536) mod 65536 >? 32767
      then (raw / 65536) mod 65536 - 65536
      else (raw / 65536) mod 65536)).
Proof.
  unfold unpack_tdata. rewrite !land_65535.
  rewrite Z.shiftr_div_pow2 by lia. reflexivity.
Qed.

Lemma unpack_tdata_bounds (raw : Z) :
  signed16 (fst (unpack_tdata raw)) /\ signed16 (snd (unpack_tdata raw)).
Proof.
  rewrite unpack_tdata_mod. unfold signed16. cbn [fst snd].
  pose proof (Z.mod_pos_bound raw 65536 eq_refl) as Hi.
  pose proof (Z.mod_pos_bound (raw / 65536) 65536 eq_refl) as Hq.
  split.
  - destruct (raw mod 65536 >? 32767) eqn:E.
    + apply Z.gtb_lt in E. lia.
    + rewrite Z.gtb_ltb in E. apply Z.ltb_ge in E. lia.
  - destruct ((raw / 65536) mod 65536 >? 32767) eqn:E.
    + apply Z.gtb_lt in E. lia.
    + rewrite Z.gtb_ltb in E. apply Z.ltb_ge in E. lia.
Qed.

(** Whatever the word, both values unpacked from it are signed 16-bit
    integers, and they depend on its low 32 bits only. *)
Theorem unpack_tdata_signed16 (raw : Z) :
  signed16 (fst (unpack_tdata raw)) /\
  signed16 (snd (unpack_tdata raw)) /\
  unpack_tdata raw = unpack_tdata (raw mod 4294967296).
Proof.
  split; [apply unpack_tdata_bounds |]. split; [apply unpack_tdata_bounds |].
  rewrite !unpack_tdata_mod.
  pose proof (Z.mod_pos_bound raw 65536 eq_refl) as Ba.
  pose proof (Z.mod_pos_bound (raw / 65536) 65536 eq_refl) as Bb.
  assert (Hsplit : raw mod 4294967296
                   = raw mod 65536 + 65536 * ((raw / 65536) mod 65536)).
  { change 4294967296 with (65536 * 65536). apply Z.rem_mul_r; lia. }
  assert (Hlow : (raw mod 4294967296) mod 65536 = raw mod 65536).
  { rewrite Hsplit. symmetry.
    apply (Z.mod_unique _ 65536 ((raw / 65536) mod 65536)); lia. }
  assert (Hdiv : raw mod 4294967296 / 65536 = (raw / 65536) mod 65536).
  { rewrite Hsplit. symmetry.
    apply (Z.div_unique _ 65536 _ (raw mod 65536)); lia. }
  assert (Hhigh : (raw mod 4294967296 / 65536) mod 65536
                  = (raw / 65536) mod 65536).
  { rewrite Hdiv. apply Z.mod_small. lia. }
  now rewrite Hlow, Hhigh.
Qed.

Lemma signed16_mod (v : Z) :
  signed16 v ->
  (if v mod 65536 >? 32767 then v mod 65536 - 65536 else v mod 65536) = v.
Proof.
  unfold signed16. intros Hv.
  destruct (Z_lt_le_dec v 0) as [Hneg | Hpos].
  - assert (Hm : v mod 65536 = v + 65536).
    { symmetry. apply (Z.mod_unique v 65536 (-1)); lia. }
    rewrite Hm.
    destruct (v + 65536 >? 32767) eqn:E; [lia |].
    rewrite Z.gtb_ltb in E. apply Z.ltb_ge in E. lia.
  - rewrite Z.mod_small by lia.
    destruct (v >? 32767) eqn:E; [| reflexivity].
    apply Z.gtb_lt in E. lia.
Qed.

(** Round trip: the word that holds Q in bits 31..16 and I in bits 15..0,
    both in two's complement, unpacks to (I, Q); bits above bit 31 do not
    matter. *)
Theorem unpack_tdata_round_trip (i q high : Z) :
  signed16 i ->
  signed16 q ->
  unpack_tdata (high * 4294967296 + (q mod 65536) * 65536 + i mod 65536)
  = (i, q).
Proof.
  intros Hi Hq. rewrite unpack_tdata_mod.
  pose proof (Z.mod_pos_bound i 65536 eq_refl) as Bi.
  pose proof (Z.mod_pos_bound q 65536 eq_refl) as Bq.
  assert (Hlow : (high * 4294967296 + q mod 65536 * 65536 + i mod 65536)
                 mod 65536 = i mod 65536).
  { symmetry.
    apply (Z.mod_unique _ 65536 (high * 65536 + q mod 65536)); lia. }
  assert (Hdiv : (high * 4294967296 + q mod 65536 * 65536 + i mod 65536)
                 / 65536 = high * 65536 + q mod 65536).
  { symmetry.
    apply (Z.div_unique _ 65536 _ (i mod 65536)); lia. }
  assert (Hhigh : (high * 65536 + q mod 65536) mod 65536 = q mod 65536).
  { symmetry. apply (Z.mod_unique _ 65536 high); lia. }
  rewrite Hlow, Hdiv, Hhigh.
  now rewrite (signed16_mod i Hi), (signed16_mod q Hq).
Qed.

Lemma unpack_tdata_round_trip_witness :
  signed16 (-2) /\ signed16 32767 /\
  unpack_tdata (3 * 4294967296 + (32767 mod 65536) * 65536 + (-2) mod 65536)
  = (-2, 32767).
Proof.
  assert (H1 : signed16 (-2)) by (unfold signed16; lia).
  assert (H2 : signed16 32767) by (unfold signed16; lia).
  split; [exact H1 |]. split; [exact H2 |].
  exact (unpack_tdata_round_trip (-2) 32767 3 H1 H2).
Defined.

(* ================================================================== *)
(** * 18. The verification bench: the capture loop *)
(* ================================================================== *)

Lemma firstn_until_tlast_cons (k : nat) (c : AxisCycle)
    (beats : list AxisCycle) :
  (0 < k)%nat ->
  firstn k (until_tlast (c :: beats))
  = if m_axis_tlast c =? 1 then [c]
    else c :: firstn (k - 1) (until_tlast beats).
Proof.
  intros Hk. destruct k as [| k]; [lia |].
  cbn [until_tlast]. destruct (m_axis_tlast c =? 1).
  - cbn [firstn]. now destruct k.
  - replace (S k - 1)%nat with k by lia. reflexivity.
Qed.

(** The loop, with its accumulators: it appends the transfers of
    [captured_beats], counted from what it already holds, and it has
    returned exactly when it holds enough samples or took in a transfer
    with [tlast]. *)
Lemma capture_loop_spec (n : Z) (cycles : list AxisCycle) :
  forall (ai aq : list Z),
    let beats := captured_beats (n - Z.of_nat (length ai)) cycles in
    lists_of (capture_loop n cycles ai aq)
    = ((ai ++ map i_of beats)%list, (aq ++ map q_of beats)%list) /\
    (has_returned (capture_loop n cycles ai aq) = true <->
     n <= Z.of_nat (length ai) + Z.of_nat (length beats) \/
     ends_with_tlast beats = true).
Proof.
  unfold captured_beats.
  induction cycles as [| c rest IH]; intros ai aq; cbn zeta.
  - cbn [filter until_tlast capture_loop]. rewrite firstn_nil.
    cbn [map length ends_with_tlast existsb]. rewrite !app_nil_r.
    destruct (Z.of_nat (length ai) <? n) eqn:E.
    + apply Z.ltb_lt in E. split; [reflexivity |]. cbn [has_returned].
      split; [discriminate | intros [H | H]; [lia | discriminate]].
    + apply Z.ltb_ge in E. split; [reflexivity |]. cbn [has_returned].
      split; [intros _; left; lia | reflexivity].
  - cbn [capture_loop filter]. fold (accepted c).
    destruct (Z.of_nat (length ai) <? n) eqn:E.
    + apply Z.ltb_lt in E.
      destruct (accepted c) eqn:Ha.
      * rewrite firstn_until_tlast_cons by lia.
        destruct (unpack_tdata (m_axis_tdata c)) as [i_val q_val] eqn:Eu.
        assert (Hi : i_of c = i_val) by (unfold i_of; now rewrite Eu).
        assert (Hq : q_of c = q_val) by (unfold q_of; now rewrite Eu).
        destruct (m_axis_tlast c =? 1) eqn:El.
        -- cbn [lists_of has_returned map length ends_with_tlast existsb].
           rewrite Hi, Hq, El. split; [reflexivity |].
           split; [intros _; now right | reflexivity].
        -- specialize (IH (ai ++ [i_val])%list (aq ++ [q_val])%list).
           cbn zeta in IH. rewrite length_app in IH. cbn [length] in IH.
           replace (Z.to_nat (n - Z.of_nat (length ai + 1)))
             with (Z.to_nat (n - Z.of_nat (length ai)) - 1)%nat in IH by lia.
           destruct IH as [IHl IHr]. split.
           ++ rewrite IHl. cbn [map]. rewrite Hi, Hq.
              now rewrite <- !app_assoc.
           ++ rewrite IHr. cbn [length ends_with_tlast existsb].
              rewrite El. cbn [orb]. unfold ends_with_tlast. split.
              ** intros [H | H]; [left; lia | now right].
              ** intros [H | H]; [left; lia | now right].
      * apply IH.
    + apply Z.ltb_ge in E.
      replace (Z.to_nat (n - Z.of_nat (length ai))) with O by lia.
      cbn [firstn map length lists_of has_returned ends_with_tlast existsb].
      rewrite !app_nil_r. split; [reflexivity |].
      split; [intros _; left; lia | reflexivity].
Qed.

(** The capture takes in, in order, the transfers (cycles with tvalid = 1
    and tready = 1) up to and including the first one with tlast = 1, at
    most [expected_samples] of them; its lists are their I and Q values.
    It has returned on the given cycles exactly when it took in
    [expected_samples] transfers or one with tlast. *)
Theorem capture_axis_data_spec (expected_samples : Z)
    (cycles : list AxisCycle) :
  lists_of (capture_axis_data expected_samples cycles)
  = (map i_of (captured_beats expected_samples cycles),
     map q_of (captured_beats expected_samples cycles)) /\
  (has_returned (capture_axis_data expected_samples cycles) = true <->
   expected_samples
   <= Z.of_nat (length (captured_beats expected_samples cycles)) \/
   ends_with_tlast (captured_beats expected_samples cycles) = true).
Proof.
  destruct (capture_loop_spec expected_samples cycles [] []) as [Hl Hr].
  cbn [length app] in Hl, Hr. rewrite Z.sub_0_r in Hl, Hr.
  split; [exact Hl |]. rewrite Hr. split.
  - intros [H | H]; [left; lia | now right].
  - intros [H | H]; [left; lia | now right].
Qed.

Lemma In_until_tlast (c : AxisCycle) (beats : list AxisCycle) :
  In c (until_tlast beats) -> In c beats.
Proof.
  induction beats as [| b beats IH]; [contradiction |].
  cbn [until_tlast]. destruct (m_axis_tlast b =? 1).
  - intros [<- | []]. now left.
  - intros [<- | H]; [now left | right; now apply IH].
Qed.

Lemma In_firstn (k : nat) (c : AxisCycle) :
  forall beats : list AxisCycle, In c (firstn k beats) -> In c beats.
Proof.
  induction k as [| k IH]; intros beats H; [contradiction |].
  destruct beats as [| b beats]; [contradiction |].
  cbn [firstn] in H. destruct H as [<- | H]; [now left |].
  right. now apply IH.
Qed.

Lemma In_captured_beats (n : Z) (cycles : list AxisCycle) (c : AxisCycle) :
  In c (captured_beats n cycles) -> In c cycles /\ accepted c = true.
Proof.
  unfold captured_beats. intros H.
  apply In_firstn, In_until_tlast in H. now apply filter_In in H.
Qed.

Lemma until_tlast_no_tlast (beats : list AxisCycle) :
  (forall c, In c beats -> m_axis_tlast c <> 1) ->
  until_tlast beats = beats.
Proof.
  induction beats as [| b beats IH]; intros H; [reflexivity |].
  cbn [until_tlast].
  destruct (Z.eqb_spec (m_axis_tlast b) 1) as [E | _].
  - exfalso. apply (H b); [now left | exact E].
  - f_equal. apply IH. intros c Hc. apply H. now right.
Qed.

(** What a capture that returned holds: lists of equal length, no longer
    than [expected_samples]; and it returns fewer samples than expected
    only when some transfer carried tlast = 1. *)
Theorem capture_axis_data_length (expected_samples : Z)
    (cycles : list AxisCycle) (i_data q_data : list Z) :
  capture_axis_data expected_samples cycles = Returned i_data q_data ->
  length i_data = length q_data /\
  Z.of_nat (length i_data) <= Z.max 0 expected_samples /\
  (Z.of_nat (length i_data) < expected_samples ->
   exists c, In c cycles /\ accepted c = true /\ m_axis_tlast c = 1).
Proof.
  intros Hret.
  destruct (capture_loop_spec expected_samples cycles [] []) as [Hl Hr].
  cbn [length app] in Hl, Hr. rewrite Z.sub_0_r in Hl, Hr.
  fold (capture_axis_data expected_samples cycles) in Hl, Hr.
  rewrite Hret in Hl, Hr. cbn [lists_of has_returned] in Hl, Hr.
  injection Hl as -> ->. rewrite !length_map.
  split; [reflexivity |]. split.
  - unfold captured_beats.
    pose proof (firstn_le_length (Z.to_nat expected_samples)
                  (until_tlast (filter accepted cycles))). lia.
  - intros Hshort. destruct (proj1 Hr eq_refl) as [H | H]; [lia |].
    unfold ends_with_tlast in H. apply existsb_exists in H.
    destruct H as (c & Hin & Hlast).
    apply In_captured_beats in Hin. apply Z.eqb_eq in Hlast.
    exists c. tauto.
Qed.

Lemma capture_axis_data_length_witness :
  capture_axis_data 62 [idle_cycle; beat 65535; idle_cycle; last_beat 65536]
  = Returned [-1; 0] [0; 1] /\
  length [-1; 0] = length [0; 1] /\
  Z.of_nat (length [-1; 0]) <= Z.max 0 62 /\
  exists c,
    In c [idle_cycle; beat 65535; idle_cycle; last_beat 65536] /\
    accepted c = true /\ m_axis_tlast c = 1.
Proof.
  assert (Hret : capture_axis_data 62
                   [idle_cycle; beat 65535; idle_cycle; last_beat 65536]
                 = Returned [-1; 0] [0; 1]) by reflexivity.
  split; [exact Hret |].
  destruct (capture_axis_data_length 62 _ _ _ Hret) as (Hlen & Hmax & Hlast).
  split; [exact Hlen |]. split; [exact Hmax |].
  apply Hlast. simpl. lia.
Defined.

(** Every value in the lists of a capture, returned or not, is a signed
    16-bit integer. *)
Theorem capture_axis_data_range (expected_samples : Z)
    (cycles : list AxisCycle) :
  Forall signed16 (fst (lists_of (capture_axis_data expected_samples cycles)))
  /\
  Forall signed16 (snd (lists_of (capture_axis_data expected_samples cycles))).
Proof.
  destruct (capture_loop_spec expected_samples cycles [] []) as [Hl _].
  cbn [length app] in Hl.
  fold (capture_axis_data expected_samples cycles) in Hl.
  rewrite Hl. cbn [fst snd]. split; apply Forall_map, Forall_forall;
    intros c _; apply unpack_tdata_bounds.
Qed.

(** The capture has no timeout: as long as fewer than [expected_samples]
    transfers have occurred and none of them carried tlast = 1, it has not
    returned, and holds the samples of all the transfers so far. *)
Theorem capture_axis_data_waits (expected_samples : Z)
    (cycles : list AxisCycle) :
  Z.of_nat (length (filter accepted cycles)) < expected_samples ->
  (forall c, In c cycles -> accepted c = true -> m_axis_tlast c <> 1) ->
  capture_axis_data expected_samples cycles
  = Waiting (map i_of (filter accepted cycles))
      (map q_of (filter accepted cycles)).
Proof.
  intros Hfew Hnolast.
  assert (Hnl : forall c, In c (filter accepted cycles) ->
                          m_axis_tlast c <> 1).
  { intros c Hc. apply filter_In in Hc. now apply Hnolast. }
  assert (Hbeats : captured_beats expected_samples cycles
                   = filter accepted cycles).
  { unfold captured_beats. rewrite (until_tlast_no_tlast _ Hnl).
    apply firstn_all2. lia. }
  destruct (capture_loop_spec expected_samples cycles [] []) as [Hl Hr].
  cbn [length app] in Hl, Hr. rewrite Z.sub_0_r in Hl, Hr.
  fold (capture_axis_data expected_samples cycles) in Hl, Hr.
  rewrite Hbeats in Hl, Hr.
  destruct (capture_axis_data expected_samples cycles) as [i q | i q];
    cbn [lists_of has_returned] in Hl, Hr.
  - exfalso. destruct (proj1 Hr eq_refl) as [H | H]; [lia |].
    unfold ends_with_tlast in H. apply existsb_exists in H.
    destruct H as (c & Hin & Hlast). apply Z.eqb_eq in Hlast.
    now apply (Hnl c).
  - now injection Hl as -> ->.
Qed.

Lemma capture_axis_data_waits_witness :
  capture_axis_data 62 [idle_cycle; beat 32768; idle_cycle]
  = Waiting [-32768] [0].
Proof.
  apply (capture_axis_data_waits 62 [idle_cycle; beat 32768; idle_cycle]).
  - simpl. lia.
  - intros c [<- | [<- | [<- | []]]] _; simpl; lia.
Defined.

(** The loop composes over the clock cycles: run on [cycles ++ more], it
    gives what it returned on [cycles], and otherwise goes on over [more]
    from the lists it held at the end of [cycles]. *)
Theorem capture_loop_app (expected_samples : Z)
    (cycles more : list AxisCycle) :
  forall i_data q_data : list Z,
    capture_loop expected_samples (cycles ++ more) i_data q_data
    = match capture_loop expected_samples cycles i_data q_data with
      | Returned i q => Returned i q
      | Waiting i q => capture_loop expected_samples more i q
      end.
Proof.
  induction cycles as [| c rest IH]; intros i_data q_data.
  - cbn [app capture_loop].
    destruct (Z.of_nat (length i_data) <? expected_samples) eqn:E;
      [reflexivity |].
    destruct more; cbn [capture_loop]; now rewrite E.
  - cbn [app capture_loop].
    destruct (Z.of_nat (length i_data) <? expected_samples);
      [| reflexivity].
    destruct ((m_axis_tvalid c =? 1) && (m_axis_tready c =? 1));
      [| apply IH].
    destruct (unpack_tdata (m_axis_tdata c)) as [i_val q_val].
    destruct (m_axis_tlast c =? 1); [reflexivity | apply IH].
Qed.

(* ================================================================== *)
(** * 19. What a run keeps and what it never does *)
(* ================================================================== *)

Lemma Reach_run_invariant (b : Build) (tool_fails : SwarmState -> bool)
    (s0 : SwarmState) (h : list Event) (d : Dest) (s : SwarmState) :
  Reach (scripted b tool_fails) s0 h d s -> run_invariant b s0 h d s.
Proof.
  intros Hr. induction Hr as [| h n s e d Hr IH Hstep].
  - unfold run_invariant, RETRY_LIMIT.
    repeat split; try reflexivity; try lia. now left.
  - unfold step in Hstep. injection Hstep as <- <-. cbn [ev_output].
    rewrite scripted_destination.
    unfold run_invariant, RETRY_LIMIT in IH |- *.
    destruct IH as (Ht & Hp & Hlo & Hhi & IH).
    pose proof (Zge_cases (retry_count s) 5) as Hge.
    destruct n, b;
      cbn [scripted build_of node_fn airwave_agent_swarm.build
             silicon_swarm_4g.build];
      unfold orchestrator_node, scripted_judge, judge_verdict;
      try destruct (retry_count s >=? 5);
      try destruct (tool_fails s);
      simpl; intuition (auto; try lia; try discriminate).
Qed.

Lemma Reach_approval :
  Reach (scripted Silicon4G simulated_failure) silicon_swarm_4g.initial_state
    [approval] (Goto Librarian) approved_state.
Proof.
  apply (Reach_step _ _ [] Orchestrator silicon_swarm_4g.initial_state
           approval (Goto Librarian)).
  - apply Reach_start.
  - reflexivity.
Qed.

(** A stage is only invoked on a state the stage before it prepared,
    whatever the verification outcome and the start state: the librarian
    on an approved task below the retry ceiling, rtl_engineer with the
    spec block present, the judge with spec block and RTL code present,
    physical design on verified code with the correction package cleared,
    human_intervention on a halted state with the alert raised; and the
    orchestrator, after the start, only on a verification failure that
    left its correction package. *)
Theorem stages_get_their_inputs (b : Build) (tool_fails : SwarmState -> bool)
    (s0 : SwarmState) (h : list Event) (n : Stage) (s : SwarmState) :
  Reach (scripted b tool_fails) s0 h (Goto n) s ->
  match n with
  | Orchestrator =>
      h = [] \/
      (status s = "FAILED_VERIFICATION" /\
       judge_feedback s = Some (feedback_of b))
  | Librarian => status s = "TASK_APPROVED" /\ retry_count s < RETRY_LIMIT
  | RtlEngineer => status s = "SPEC_READY" /\ present (spec_block s) = true
  | Judge =>
      status s = "CODED" /\ retry_count s < RETRY_LIMIT /\
      present (spec_block s) = true /\ present (rtl_code s) = true
  | PhysicalDesign =>
      status s = "VERIFIED" /\ present (rtl_code s) = true /\
      judge_feedback s = None
  | HumanIntervention =>
      status s = "HALTED" /\ budget_alert s = true /\
      RETRY_LIMIT <= retry_count s
  end.
Proof.
  intros Hr. apply Reach_run_invariant in Hr.
  destruct Hr as (_ & _ & _ & _ & H). destruct n; tauto.
Qed.

Lemma stages_get_their_inputs_witness :
  status approved_state = "TASK_APPROVED" /\
  retry_count approved_state < RETRY_LIMIT.
Proof.
  exact (stages_get_their_inputs Silicon4G simulated_failure
           silicon_swarm_4g.initial_state [approval] Librarian
           approved_state Reach_approval).
Defined.

(** No stage ever writes [task_description] or [pd_feedback]: in every
    configuration of a run they hold what the start state held. *)
Theorem fields_never_written (b : Build) (tool_fails : SwarmState -> bool)
    (s0 : SwarmState) (h : list Event) (d : Dest) (s : SwarmState) :
  Reach (scripted b tool_fails) s0 h d s ->
  task_description s = task_description s0 /\
  pd_feedback s = pd_feedback s0.
Proof.
  intros Hr. apply Reach_run_invariant in Hr.
  destruct Hr as (Ht & Hp & _). now split.
Qed.

Lemma fields_never_written_witness :
  task_description approved_state = "Design LTE PSS Generator" /\
  pd_feedback approved_state = None.
Proof.
  exact (fields_never_written Silicon4G simulated_failure
           silicon_swarm_4g.initial_state [approval] (Goto Librarian)
           approved_state Reach_approval).
Defined.

(** The retry count of a run never falls below its start value and never
    rises above the ceiling (or the start value, when that is higher):
    the judge, the only stage that increments it, runs only below the
    ceiling. *)
Theorem retry_count_within_ceiling (b : Build)
    (tool_fails : SwarmState -> bool)
    (s0 : SwarmState) (h : list Event) (d : Dest) (s : SwarmState) :
  Reach (scripted b tool_fails) s0 h d s ->
  retry_count s0 <= retry_count s <= Z.max (retry_count s0) RETRY_LIMIT.
Proof.
  intros Hr. apply Reach_run_invariant in Hr.
  destruct Hr as (_ & _ & Hlo & Hhi & _). now split.
Qed.

Lemma retry_count_within_ceiling_witness :
  0 <= retry_count approved_state <= Z.max 0 RETRY_LIMIT.
Proof.
  exact (retry_count_within_ceiling Silicon4G simulated_failure
           silicon_swarm_4g.initial_state [approval] (Goto Librarian)
           approved_state Reach_approval).
Defined.

(** A run never ends in a routing error, whatever the verification outcome
    and wherever it starts: after the judge the status is always VERIFIED
    or FAILED_VERIFICATION.  The only target a run leaves unresolved is
    the name "end" in [silicon_swarm_4g.py], which registers no path map
    for it. *)
Theorem run_never_misroutes (b : Build) (tool_fails : SwarmState -> bool)
    (fuel : nat) :
  forall (n : Stage) (s : SwarmState),
    match snd (run_from (scripted b tool_fails) fuel n s) with
    | RoutingError _ _ => False
    | Unrouted name => b = Silicon4G /\ name = "end"
    | Finished | OutOfFuel => True
    end.
Proof.
  induction fuel as [| fuel IH]; intros n s; [exact I |].
  rewrite run_from_S, scripted_destination.
  destruct n;
    try destruct (retry_count s >=? 5);
    try destruct (tool_fails s);
    try destruct b; cbn [snd]; auto; apply IH.
Qed.

Lemma last_cons_default {A : Type} (a : A) (l : list A) (d : A) :
  last (a :: l) d = last l a.
Proof.
  revert a d. induction l as [| x l IH]; intros a d; [reflexivity |].
  change (last (a :: x :: l) d) with (last (x :: l) d).
  now rewrite !IH.
Qed.

(** A run that did not exhaust its fuel leaves the state of a reachable
    configuration from which no stage follows. *)
Lemma run_from_final (g : StateGraph) (s0 : SwarmState) (fuel : nat) :
  forall (n : Stage) (s : SwarmState) (h : list Event),
    Reach g s0 h (Goto n) s ->
    snd (run_from g fuel n s) <> OutOfFuel ->
    exists h' d,
      Reach g s0 h' d (final_state s (fst (run_from g fuel n s))) /\
      forall m, d <> Goto m.
Proof.
  induction fuel as [| fuel IH]; intros n s h Hr Hend.
  - now contradiction Hend.
  - rewrite run_from_S in Hend |- *.
    assert (Hstep : Reach g s0
                      (mkEvent n s (merge s (node_fn g n s)) :: h)
                      (destination g n (merge s (node_fn g n s)))
                      (merge s (node_fn g n s))).
    { apply (Reach_step g s0 h n s
               (mkEvent n s (merge s (node_fn g n s)))); [exact Hr |].
      reflexivity. }
    destruct (destination g n (merge s (node_fn g n s))) as [m | | name |].
    + cbn [fst snd] in Hend |- *. unfold final_state. cbn [map ev_output].
      rewrite last_cons_default.
      apply (IH m _ _ Hstep Hend).
    + eexists; exists ToEnd. split; [exact Hstep | discriminate].
    + eexists; exists (Unknown name). split; [exact Hstep | discriminate].
    + eexists; exists NoDest. split; [exact Hstep | discriminate].
Qed.

(** How a run ends: started with a non-negative retry count and given fuel
    for 22 stage invocations, it leaves either the hardened status with
    spec block and RTL code present, the correction package cleared, the
    retry count below the ceiling and the alert as it was at the start,
    or status HALTED with the alert raised and the retry count at the
    ceiling or above.  Nothing else is an outcome, whatever the
    verification tool answers. *)
Theorem run_outcome (b : Build) (tool_fails : SwarmState -> bool)
    (s0 : SwarmState) (fuel : nat) :
  0 <= retry_count s0 ->
  (22 <= fuel)%nat ->
  (status (final_state s0 (fst (run (scripted b tool_fails) fuel s0)))
   = "GDSII_HARDENED" /\
   budget_alert (final_state s0 (fst (run (scripted b tool_fails) fuel s0)))
   = budget_alert s0 /\
   retry_count (final_state s0 (fst (run (scripted b tool_fails) fuel s0)))
   < RETRY_LIMIT /\
   present
     (spec_block
        (final_state s0 (fst (run (scripted b tool_fails) fuel s0))))
   = true /\
   present
     (rtl_code (final_state s0 (fst (run (scripted b tool_fails) fuel s0))))
   = true /\
   judge_feedback
     (final_state s0 (fst (run (scripted b tool_fails) fuel s0)))
   = None) \/
  (status (final_state s0 (fst (run (scripted b tool_fails) fuel s0)))
   = "HALTED" /\
   budget_alert (final_state s0 (fst (run (scripted b tool_fails) fuel s0)))
   = true /\
   RETRY_LIMIT
   <= retry_count
        (final_state s0 (fst (run (scripted b tool_fails) fuel s0)))).
Proof.
  intros H0 Hfuel. unfold run.
  assert (Hend : snd (run_from (scripted b tool_fails) fuel Orchestrator s0)
                 <> OutOfFuel).
  { apply (orchestrator_run_bounded b tool_fails
             (Z.to_nat (RETRY_LIMIT - retry_count s0)) s0 fuel eq_refl).
    unfold RETRY_LIMIT. lia. }
  destruct (run_from_final (scripted b tool_fails) s0 fuel Orchestrator s0 []
              (Reach_start _ _) Hend) as (h' & d & Hr & Hd).
  apply Reach_run_invariant in Hr.
  destruct Hr as (_ & _ & _ & _ & H).
  destruct d as [m | | name |].
  - now contradiction (Hd m).
  - exact H.
  - exact H.
  - contradiction.
Qed.

Lemma run_outcome_witness :
  (status (final_state exhausted_state
             (fst (run (scripted Airwave (fun _ => true)) 22
                     exhausted_state)))
   = "GDSII_HARDENED" /\
   budget_alert (final_state exhausted_state
                   (fst (run (scripted Airwave (fun _ => true)) 22
                           exhausted_state)))
   = budget_alert exhausted_state /\
   retry_count (final_state exhausted_state
                  (fst (run (scripted Airwave (fun _ => true)) 22
                          exhausted_state)))
   < RETRY_LIMIT /\
   present
     (spec_block
        (final_state exhausted_state
           (fst (run (scripted Airwave (fun _ => true)) 22
                   exhausted_state))))
   = true /\
   present
     (rtl_code
        (final_state exhausted_state
           (fst (run (scripted Airwave (fun _ => true)) 22
                   exhausted_state))))
   = true /\
   judge_feedback
     (final_state exhausted_state
        (fst (run (scripted Airwave (fun _ => true)) 22 exhausted_state)))
   = None) \/
  (status (final_state exhausted_state
             (fst (run (scripted Airwave (fun _ => true)) 22
                     exhausted_state)))
   = "HALTED" /\
   budget_alert (final_state exhausted_state
                   (fst (run (scripted Airwave (fun _ => true)) 22
                           exhausted_state)))
   = true /\
   RETRY_LIMIT
   <= retry_count
        (final_state exhausted_state
           (fst (run (scripted Airwave (fun _ => true)) 22
                   exhausted_state)))).
Proof.
  apply (run_outcome Airwave (fun _ => true) exhausted_state 22).
  - simpl. lia.
  - lia.
Defined.

(* ================================================================== *)
(** * 20. The three runs of the scripts *)
(* ================================================================== *)

(** One stage invocation, as the engine sees it: the state it leaves is
    known by its routing fields, and the rest of the run goes on from
    it. *)
Lemma visible_run_step (b : Build) (tool_fails : SwarmState -> bool)
    (f : nat) (n : Stage) (s : SwarmState) :
  exists s',
    retry_count s'
    = retry_count s
      + match n with Judge => if tool_fails s then 1 else 0 | _ => 0 end /\
    budget_alert s'
    = match n with
      | Orchestrator => if retry_count s >=? 5 then true else budget_alert s
      | _ => budget_alert s
      end /\
    status s'
    = match n with
      | Orchestrator =>
          if retry_count s >=? 5 then "HALTED" else "TASK_APPROVED"
      | Librarian => "SPEC_READY"
      | RtlEngineer => "CODED"
      | Judge => if tool_fails s then "FAILED_VERIFICATION" else "VERIFIED"
      | PhysicalDesign => "GDSII_HARDENED"
      | HumanIntervention =>
          match b with Airwave => status s | Silicon4G => "HALTED" end
      end /\
    map visible (fst (run_from (scripted b tool_fails) (S f) n s))
    = (n, status s', retry_count s', budget_alert s')
      :: match n with
         | Orchestrator =>
             if retry_count s >=? 5
             then map visible
                    (fst (run_from (scripted b tool_fails) f
                            HumanIntervention s'))
             else map visible
                    (fst (run_from (scripted b tool_fails) f Librarian s'))
         | Librarian =>
             map visible
               (fst (run_from (scripted b tool_fails) f RtlEngineer s'))
         | RtlEngineer =>
             map visible (fst (run_from (scripted b tool_fails) f Judge s'))
         | Judge =>
             if tool_fails s
             then map visible
                    (fst (run_from (scripted b tool_fails) f Orchestrator s'))
             else map visible
                    (fst (run_from (scripted b tool_fails) f
                            PhysicalDesign s'))
         | PhysicalDesign | HumanIntervention => []
         end.
Proof.
  exists (merge s (node_fn (scripted b tool_fails) n s)).
  split; [apply scripted_retry_count |].
  split; [apply scripted_budget_alert |].
  split; [apply scripted_status |].
  rewrite run_from_S, scripted_destination.
  destruct n;
    try destruct (retry_count s >=? 5);
    try destruct (tool_fails s);
    try destruct b; reflexivity.
Qed.

Lemma simulated_failure_eq (s : SwarmState) :
  simulated_failure s = (retry_count s =? 0).
Proof. reflexivity. Qed.

(** The scripts have exactly three runs, chosen by the retry count of the
    start state.  At the ceiling or above: the orchestrator halts and
    human_intervention ends the run.  At 0: the judge fails once, the
    cycle is repeated and the second verification passes (nine stage
    invocations).  Otherwise: the first verification passes (five stage
    invocations).  Each entry is the stage and the status, retry count
    and alert it leaves. *)
Theorem three_runs (b : Build) (s0 : SwarmState) (extra : nat) :
  map visible (fst (run (workflow_of b) (9 + extra) s0))
  = if retry_count s0 >=? 5 then
      [(Orchestrator, "HALTED", retry_count s0, true);
       (HumanIntervention, "HALTED", retry_count s0, true)]
    else if retry_count s0 =? 0 then
      [(Orchestrator, "TASK_APPROVED", 0, budget_alert s0);
       (Librarian, "SPEC_READY", 0, budget_alert s0);
       (RtlEngineer, "CODED", 0, budget_alert s0);
       (Judge, "FAILED_VERIFICATION", 1, budget_alert s0);
       (Orchestrator, "TASK_APPROVED", 1, budget_alert s0);
       (Librarian, "SPEC_READY", 1, budget_alert s0);
       (RtlEngineer, "CODED", 1, budget_alert s0);
       (Judge, "VERIFIED", 1, budget_alert s0);
       (PhysicalDesign, "GDSII_HARDENED", 1, budget_alert s0)]
    else
      [(Orchestrator, "TASK_APPROVED", retry_count s0, budget_alert s0);
       (Librarian, "SPEC_READY", retry_count s0, budget_alert s0);
       (RtlEngineer, "CODED", retry_count s0, budget_alert s0);
       (Judge, "VERIFIED", retry_count s0, budget_alert s0);
       (PhysicalDesign, "GDSII_HARDENED", retry_count s0, budget_alert s0)].
Proof.
  unfold run. rewrite workflow_of_scripted.
  change (9 + extra)%nat with (S (8 + extra)).
  destruct (visible_run_step b simulated_failure (8 + extra) Orchestrator s0)
    as (s1 & Hrc1 & Hal1 & Hst1 & ->).
  rewrite Hst1, Hrc1, Hal1, Z.add_0_r.
  change (8 + extra)%nat with (S (7 + extra)).
  destruct (retry_count s0 >=? 5) eqn:H5.
  - (* halted at once *)
    destruct (visible_run_step b simulated_failure (7 + extra)
                HumanIntervention s1) as (s2 & Hrc2 & Hal2 & Hst2 & ->).
    rewrite Hst2, Hrc2, Hal2, Hst1, Hrc1, Hal1, !Z.add_0_r.
    destruct b; reflexivity.
  - destruct (visible_run_step b simulated_failure (7 + extra) Librarian s1)
      as (s2 & Hrc2 & Hal2 & Hst2 & ->).
    change (7 + extra)%nat with (S (6 + extra)).
    destruct (visible_run_step b simulated_failure (6 + extra) RtlEngineer s2)
      as (s3 & Hrc3 & Hal3 & Hst3 & ->).
    change (6 + extra)%nat with (S (5 + extra)).
    destruct (visible_run_step b simulated_failure (5 + extra) Judge s3)
      as (s4 & Hrc4 & Hal4 & Hst4 & ->).
    assert (E2 : retry_count s2 = retry_count s0) by lia.
    assert (E3 : retry_count s3 = retry_count s0) by lia.
    assert (A2 : budget_alert s2 = budget_alert s0) by congruence.
    assert (A3 : budget_alert s3 = budget_alert s0) by congruence.
    assert (A4 : budget_alert s4 = budget_alert s0) by congruence.
    assert (F3 : simulated_failure s3 = (retry_count s0 =? 0))
      by (unfold simulated_failure; now rewrite E3).
    rewrite F3 in Hrc4, Hst4. rewrite F3.
    rewrite Hst2, Hst3, E2, E3, A2, A3, A4.
    change (5 + extra)%nat with (S (4 + extra)).
    destruct (retry_count s0 =? 0) eqn:H0.
    + (* one correction cycle *)
      apply Z.eqb_eq in H0. rewrite H0 in *.
      assert (E4 : retry_count s4 = 1) by lia.
      rewrite Hst4, E4.
      destruct (visible_run_step b simulated_failure
                  (4 + extra) Orchestrator s4)
        as (s5 & Hrc5 & Hal5 & Hst5 & ->).
      rewrite E4 in Hal5, Hst5 |- *.
      change (1 >=? 5) with false in Hal5, Hst5 |- *. cbv iota in Hal5, Hst5 |- *.
      change (4 + extra)%nat with (S (3 + extra)).
      destruct (visible_run_step b simulated_failure
                  (3 + extra) Librarian s5)
        as (s6 & Hrc6 & Hal6 & Hst6 & ->).
      change (3 + extra)%nat with (S (2 + extra)).
      destruct (visible_run_step b simulated_failure
                  (2 + extra) RtlEngineer s6)
        as (s7 & Hrc7 & Hal7 & Hst7 & ->).
      change (2 + extra)%nat with (S (1 + extra)).
      destruct (visible_run_step b simulated_failure
                  (1 + extra) Judge s7)
        as (s8 & Hrc8 & Hal8 & Hst8 & ->).
      change (1 + extra)%nat with (S extra).
      assert (E5 : retry_count s5 = 1) by lia.
      assert (E6 : retry_count s6 = 1) by lia.
      assert (E7 : retry_count s7 = 1) by lia.
      assert (F7 : simulated_failure s7 = false)
        by (unfold simulated_failure; now rewrite E7).
      rewrite F7 in Hrc8, Hst8. rewrite F7.
      assert (E8 : retry_count s8 = 1) by lia.
      destruct (visible_run_step b simulated_failure
                  extra PhysicalDesign s8)
        as (s9 & Hrc9 & Hal9 & Hst9 & ->).
      assert (E9 : retry_count s9 = 1) by lia.
      rewrite Hst5, Hst6, Hst7, Hst8, Hst9, E5, E6, E7, E8, E9.
      rewrite Hal9, Hal8, Hal7, Hal6, Hal5, A4.
      reflexivity.
    + (* verified at once *)
      assert (E4 : retry_count s4 = retry_count s0) by lia.
      destruct (visible_run_step b simulated_failure
                  (4 + extra) PhysicalDesign s4)
        as (s5 & Hrc5 & Hal5 & Hst5 & ->).
      assert (E5 : retry_count s5 = retry_count s0) by lia.
      rewrite Hst4, Hst5, E4, E5, Hal5, A4.
      reflexivity.
Qed.

(* ================================================================== *)
(** * 21. The final report of [silicon_swarm_4g.py] *)
(* ================================================================== *)

(** No stage takes the RTL code away once it is there. *)
Lemma node_keeps_rtl_code (b : Build) (tool_fails : SwarmState -> bool)
    (n : Stage) (s : SwarmState) :
  truthy (rtl_code s) = true ->
  truthy (rtl_code (merge s (node_fn (scripted b tool_fails) n s))) = true.
Proof.
  intros H.
  destruct n, b;
    cbn [scripted build_of node_fn airwave_agent_swarm.build
           silicon_swarm_4g.build];
    unfold orchestrator_node, scripted_judge, judge_verdict;
    try destruct (retry_count s >=? 5);
    try destruct (tool_fails s);
    simpl; auto.
Qed.

(** Once rtl_engineer has run the RTL code is there: at the judge and at
    physical design, and wherever the retry count has grown. *)
Lemma Reach_rtl_code (b : Build) (tool_fails : SwarmState -> bool)
    (s0 : SwarmState) (h : list Event) (d : Dest) (s : SwarmState) :
  Reach (scripted b tool_fails) s0 h d s ->
  match d with
  | Goto Judge | Goto PhysicalDesign => truthy (rtl_code s) = true
  | Goto _ => retry_count s0 < retry_count s -> truthy (rtl_code s) = true
  | ToEnd | Unknown _ =>
      retry_count s0 < RETRY_LIMIT -> truthy (rtl_code s) = true
  | NoDest => True
  end.
Proof.
  intros Hr. induction Hr as [| h n s e d Hr IH Hstep].
  - lia.
  - pose proof (Reach_run_invariant b tool_fails s0 h (Goto n) s Hr) as Hinv.
    destruct Hinv as (_ & _ & _ & _ & Hinv).
    unfold step in Hstep. injection Hstep as <- <-. cbn [ev_output].
    rewrite scripted_destination.
    pose proof (node_keeps_rtl_code b tool_fails n s) as Hkeep.
    pose proof (scripted_retry_count b tool_fails n s) as Hrc.
    destruct n.
    + destruct (retry_count s >=? 5); intros Hlt; apply Hkeep, IH; lia.
    + intros Hlt. apply Hkeep, IH. lia.
    + destruct b; reflexivity.
    + destruct (tool_fails s); [intros _ |]; now apply Hkeep.
    + destruct b; intros _; now apply Hkeep.
    + intros Hlt. apply Hkeep, IH. unfold RETRY_LIMIT in *. lia.
Qed.

(** The report after a run that starts below the retry ceiling, without
    the alert, has one of two forms, whatever the verification tool
    answers: the hardened status followed by the RTL line, or status
    HALTED followed by the RTL line and the call for human intervention.
    The RTL line is printed in both, also when verification never
    passed. *)
Theorem main_report_forms (tool_fails : SwarmState -> bool)
    (s0 : SwarmState) (fuel : nat) :
  0 <= retry_count s0 < RETRY_LIMIT ->
  budget_alert s0 = false ->
  (22 <= fuel)%nat ->
  main_report
    (final_state s0 (fst (run (scripted Silicon4G tool_fails) fuel s0)))
  = [completed_line; "Final Status: GDSII_HARDENED"; rtl_line] \/
  main_report
    (final_state s0 (fst (run (scripted Silicon4G tool_fails) fuel s0)))
  = [completed_line; "Final Status: HALTED"; rtl_line; human_line].
Proof.
  intros Hrc0 Hal0 Hfuel. unfold run.
  assert (Hend : snd (run_from (scripted Silicon4G tool_fails) fuel
                        Orchestrator s0) <> OutOfFuel).
  { apply (orchestrator_run_bounded Silicon4G tool_fails
             (Z.to_nat (RETRY_LIMIT - retry_count s0)) s0 fuel eq_refl).
    unfold RETRY_LIMIT in *. lia. }
  destruct (run_from_final (scripted Silicon4G tool_fails) s0 fuel
              Orchestrator s0 [] (Reach_start _ _) Hend)
    as (h' & d & Hr & Hd).
  pose proof (Reach_rtl_code _ _ _ _ _ _ Hr) as Hrtl.
  apply Reach_run_invariant in Hr.
  destruct Hr as (_ & _ & _ & _ & H).
  set (fs := final_state s0
               (fst (run_from (scripted Silicon4G tool_fails) fuel
                       Orchestrator s0))) in *.
  assert (Hforms :
    ((status fs = "GDSII_HARDENED" /\ budget_alert fs = false) \/
     (status fs = "HALTED" /\ budget_alert fs = true)) /\
    truthy (rtl_code fs) = true).
  { destruct d as [m | | name |].
    - now contradiction (Hd m).
    - split; [| apply Hrtl; lia].
      destruct H as [(Hst & Hal & _) | (Hst & Hal & _)];
        [left | right]; split; congruence.
    - split; [| apply Hrtl; lia].
      destruct H as [(Hst & Hal & _) | (Hst & Hal & _)];
        [left | right]; split; congruence.
    - contradiction. }
  destruct Hforms as [[(Hst & Hal) | (Hst & Hal)] Htruthy];
    unfold main_report; rewrite Hst, Hal, Htruthy; [left | right];
    reflexivity.
Qed.

Lemma main_report_forms_witness :
  main_report
    (final_state silicon_swarm_4g.initial_state
       (fst (run (scripted Silicon4G (fun _ => true)) 22
               silicon_swarm_4g.initial_state)))
  = [completed_line; "Final Status: GDSII_HARDENED"; rtl_line] \/
  main_report
    (final_state silicon_swarm_4g.initial_state
       (fst (run (scripted Silicon4G (fun _ => true)) 22
               silicon_swarm_4g.initial_state)))
  = [completed_line; "Final Status: HALTED"; rtl_line; human_line].
Proof.
  apply (main_report_forms (fun _ => true) silicon_swarm_4g.initial_state 22).
  - unfold RETRY_LIMIT. simpl. lia.
  - reflexivity.
  - lia.
Defined.
